(** * Display hibernation controller (samsung/exynos_drm_hibernation.c)

    A shallow embedding of the hibernation state machine of the Exynos DRM
    display driver: the trigger countdown, the block (veto) count, the
    eligibility check and the enter / exit sequences, together with the
    calls they make into the writeback, DECON, DSIM, bandwidth and
    runtime-PM subsystems, recorded as a chronological event log. *)

From Stdlib Require Import ZArith List Bool Lia.
Import ListNotations.
Open Scope Z_scope.

(** ** Kernel primitives the driver is written against *)

Module Kernel.

(** An [int] (and the counter of an [atomic_t]) is 32 bits wide, two's
    complement; the kernel is built so that signed arithmetic wraps. *)
Definition INT_MIN : Z := - 2 ^ 31.
Definition INT_MAX : Z := 2 ^ 31 - 1.

Definition to_int (v : Z) : Z := (v + 2 ^ 31) mod 2 ^ 32 - 2 ^ 31.

(** [long] is 64 bits wide on the arm64 targets of this driver. *)
Definition to_long (v : Z) : Z := (v + 2 ^ 63) mod 2 ^ 64 - 2 ^ 63.

Definition is_int (v : Z) : Prop := INT_MIN <= v <= INT_MAX.

Definition atomic_inc (v : Z) : Z := to_int (v + 1).
Definition atomic_dec (v : Z) : Z := to_int (v - 1).

(** [atomic_dec_and_test]: decrement, and tell whether the new value is
    zero.  The pair is (answer, new counter). *)
Definition atomic_dec_and_test (v : Z) : bool * Z :=
  let v' := to_int (v - 1) in (v' =? 0, v').

(** [DIV_ROUND_UP(n, d)] is [((n) + (d) - 1) / (d)]; C division truncates
    towards zero.  With [d] a [long] the sum is computed in [long]. *)
Definition DIV_ROUND_UP (n d : Z) : Z := Z.quot (to_long (n + d - 1)) d.

Definition MSEC_PER_SEC : Z := 1000.

Definition EBUSY : Z := 16.
Definition ENODEV : Z := 19.

End Kernel.
Import Kernel.

(** ** Data model *)

Definition HIBERNATION_ENTRY_DEFAULT_FPS : Z := 60.
Definition HIBERNATION_ENTRY_MIN_TIME_MS : Z := 50.
Definition HIBERNATION_ENTRY_MIN_ENTRY_CNT : Z := 1.
Definition CAMERA_OPERATION_MASK : Z := 15.

(** Modelled from the spec: [enum decon_state] is declared in
    exynos_drm_decon.h, outside the file verified here.  The code
    compares the state with [DECON_STATE_ON] (the spec's ACTIVE) and with
    [DECON_STATE_HIBERNATION] (the spec's HIBERNATING) separately;
    [DECON_STATE_OFF] stands for every other value of the enumeration. *)
Inductive decon_state : Type :=
| DECON_STATE_ON
| DECON_STATE_HIBERNATION
| DECON_STATE_OFF.

Definition decon_state_eqb (a b : decon_state) : bool :=
  match a, b with
  | DECON_STATE_ON, DECON_STATE_ON => true
  | DECON_STATE_HIBERNATION, DECON_STATE_HIBERNATION => true
  | DECON_STATE_OFF, DECON_STATE_OFF => true
  | _, _ => false
  end.

(** Pointers to the link and writeback devices are kept as opaque handles;
    [None] is the NULL pointer. *)
Definition dsim_device : Type := nat.
Definition writeback_device : Type := nat.

(** The part of [struct decon_device] the controller reads or drives.
    [attached_wb] and [attached_dsim] are what [decon_get_wb] and
    [decon_get_dsim] currently return; [dev_usage] is the number of
    runtime-PM references held on [decon->dev]. *)
Record decon_device : Type := mk_decon {
  state : decon_state;
  bts_fps : Z;
  attached_wb : option writeback_device;
  attached_dsim : option dsim_device;
  dev_usage : Z
}.

(** The only operations table of the file is [hibernation_funcs]
    ([check], [enter] and [exit] below). *)
Inductive exynos_hibernation_funcs : Type :=
| hibernation_funcs.

(** [struct exynos_hibernation].  [cam_op_reg] is [None] when no camera
    register is mapped and [Some v] when one is, [v] being the word a
    [readl] of it returns now.  [lock] tells whether the mutex is held, and
    [work] whether the entry work item is queued. *)
Record exynos_hibernation : Type := mk_hiber {
  trig_cnt : Z;
  block_cnt : Z;
  cam_op_reg : option Z;
  lock : bool;
  decon : option decon_device;
  dsim : option dsim_device;
  wb : option writeback_device;
  funcs : option exynos_hibernation_funcs;
  work : bool
}.

(** Calls into the dependent subsystems, in the order they are made. *)
Inductive event : Type :=
| Ev_writeback_enter_hibernation (w : writeback_device)
| Ev_decon_enter_hibernation
| Ev_dsim_enter_ulps (d : dsim_device)
| Ev_release_bw
| Ev_pm_runtime_put_sync
| Ev_pm_runtime_get_sync
| Ev_dsim_exit_ulps (d : dsim_device)
| Ev_decon_exit_hibernation
| Ev_writeback_exit_hibernation (w : writeback_device).

Record world : Type := mk_world {
  hiber : exynos_hibernation;
  log : list event
}.

(** Field updates. *)
Definition set_state (s : decon_state) (d : decon_device) : decon_device :=
  mk_decon s (bts_fps d) (attached_wb d) (attached_dsim d) (dev_usage d).
Definition set_dev_usage (u : Z) (d : decon_device) : decon_device :=
  mk_decon (state d) (bts_fps d) (attached_wb d) (attached_dsim d) u.

Definition set_trig_cnt (v : Z) (h : exynos_hibernation) : exynos_hibernation :=
  mk_hiber v (block_cnt h) (cam_op_reg h) (lock h) (decon h) (dsim h) (wb h)
           (funcs h) (work h).
Definition set_block_cnt (v : Z) (h : exynos_hibernation) : exynos_hibernation :=
  mk_hiber (trig_cnt h) v (cam_op_reg h) (lock h) (decon h) (dsim h) (wb h)
           (funcs h) (work h).
Definition set_lock (v : bool) (h : exynos_hibernation) : exynos_hibernation :=
  mk_hiber (trig_cnt h) (block_cnt h) (cam_op_reg h) v (decon h) (dsim h) (wb h)
           (funcs h) (work h).
Definition set_decon (v : option decon_device) (h : exynos_hibernation)
  : exynos_hibernation :=
  mk_hiber (trig_cnt h) (block_cnt h) (cam_op_reg h) (lock h) v (dsim h) (wb h)
           (funcs h) (work h).
Definition set_dsim (v : option dsim_device) (h : exynos_hibernation)
  : exynos_hibernation :=
  mk_hiber (trig_cnt h) (block_cnt h) (cam_op_reg h) (lock h) (decon h) v (wb h)
           (funcs h) (work h).
Definition set_wb (v : option writeback_device) (h : exynos_hibernation)
  : exynos_hibernation :=
  mk_hiber (trig_cnt h) (block_cnt h) (cam_op_reg h) (lock h) (decon h) (dsim h) v
           (funcs h) (work h).
Definition set_cam_op_reg (v : option Z) (h : exynos_hibernation)
  : exynos_hibernation :=
  mk_hiber (trig_cnt h) (block_cnt h) v (lock h) (decon h) (dsim h) (wb h)
           (funcs h) (work h).
Definition set_funcs (v : option exynos_hibernation_funcs)
  (h : exynos_hibernation) : exynos_hibernation :=
  mk_hiber (trig_cnt h) (block_cnt h) (cam_op_reg h) (lock h) (decon h) (dsim h)
           (wb h) v (work h).
Definition set_work (v : bool) (h : exynos_hibernation) : exynos_hibernation :=
  mk_hiber (trig_cnt h) (block_cnt h) (cam_op_reg h) (lock h) (decon h) (dsim h)
           (wb h) (funcs h) v.

(** ** A state monad with two ways not to return

    A driver function either returns a value in a new world, or sleeps
    forever on a mutex that is already held ([Blocked]: this model runs one
    thread), or dereferences a NULL pointer ([Fault]). *)

Inductive result (A : Type) : Type :=
| Ok (a : A) (w : world)
| Blocked
| Fault.
Arguments Ok {A} a w.
Arguments Blocked {A}.
Arguments Fault {A}.

Definition M (A : Type) : Type := world -> result A.

Definition ret {A : Type} (a : A) : M A := fun w => Ok a w.

Definition bind {A B : Type} (c : M A) (k : A -> M B) : M B :=
  fun w => match c w with
           | Ok a w' => k a w'
           | Blocked => Blocked
           | Fault => Fault
           end.

Notation "x <- c ;; k" := (bind c (fun x => k))
  (at level 61, c at next level, right associativity).
Notation "c ;; k" := (bind c (fun _ => k))
  (at level 61, right associativity).

Definition get_hiber : M exynos_hibernation := fun w => Ok (hiber w) w.
Definition update (f : exynos_hibernation -> exynos_hibernation) : M unit :=
  fun w => Ok tt (mk_world (f (hiber w)) (log w)).
Definition call (e : event) : M unit :=
  fun w => Ok tt (mk_world (hiber w) (log w ++ [e])).
Definition fault {A : Type} : M A := fun _ => Fault.
Definition when (b : bool) (c : M unit) : M unit := if b then c else ret tt.

(** [hiber->decon], dereferenced. *)
Definition deref_decon : M decon_device :=
  h <- get_hiber ;;
  match decon h with
  | Some d => ret d
  | None => fault
  end.
Definition update_decon (f : decon_device -> decon_device) : M unit :=
  d <- deref_decon ;; update (set_decon (Some (f d))).

Definition mutex_lock : M unit :=
  fun w => if lock (hiber w) then Blocked
           else Ok tt (mk_world (set_lock true (hiber w)) (log w)).
Definition mutex_unlock : M unit := update (set_lock false).

(** With a single thread the work item is never running while [exit] runs,
    so cancelling it only takes it off the queue. *)
Definition kthread_cancel_work_sync : M unit := update (set_work false).

(** ** The dependent subsystems

    Each call is logged; the two DECON hooks and the two runtime-PM calls
    also change the state the controller later reads back. *)

Definition writeback_enter_hibernation (w : writeback_device) : M unit :=
  call (Ev_writeback_enter_hibernation w).
Definition writeback_exit_hibernation (w : writeback_device) : M unit :=
  call (Ev_writeback_exit_hibernation w).
Definition dsim_enter_ulps (d : dsim_device) : M unit :=
  call (Ev_dsim_enter_ulps d).
Definition dsim_exit_ulps (d : dsim_device) : M unit :=
  call (Ev_dsim_exit_ulps d).

(** [decon->bts.ops->release_bw(decon)] *)
Definition bts_release_bw : M unit := call Ev_release_bw.

(** Modelled from the spec: [decon_enter_hibernation] and
    [decon_exit_hibernation] live in exynos_drm_decon.c, outside the file
    verified here; the pipeline's state flag flips inside them, to its
    hibernating value and back to its active one. *)
Definition decon_enter_hibernation : M unit :=
  call Ev_decon_enter_hibernation ;;
  update_decon (set_state DECON_STATE_HIBERNATION).
Definition decon_exit_hibernation : M unit :=
  call Ev_decon_exit_hibernation ;;
  update_decon (set_state DECON_STATE_ON).

(** [pm_runtime_put_sync(decon->dev)] drops one runtime-PM reference,
    [pm_runtime_get_sync(decon->dev)] takes one. *)
Definition pm_runtime_put_sync : M unit :=
  call Ev_pm_runtime_put_sync ;;
  update_decon (fun d => set_dev_usage (dev_usage d - 1) d).
Definition pm_runtime_get_sync : M unit :=
  call Ev_pm_runtime_get_sync ;;
  update_decon (fun d => set_dev_usage (dev_usage d + 1) d).

Definition decon_get_wb : M (option writeback_device) :=
  d <- deref_decon ;; ret (attached_wb d).
Definition decon_get_dsim : M (option dsim_device) :=
  d <- deref_decon ;; ret (attached_dsim d).

(** ** The block count (exynos_drm_hibernation.h) *)

(** Modelled from the spec: [is_hibernaton_blocked] is an inline helper of
    exynos_drm_hibernation.h, outside the file verified here.  The
    eligibility predicate is [block_count == 0], so hibernation is blocked
    when the count is not zero. *)
Definition is_hibernaton_blocked : M bool :=
  h <- get_hiber ;; ret (negb (block_cnt h =? 0)).

(** Modelled from the spec: [hibernation_block] of exynos_drm_hibernation.h
    increments the veto count; it never fails and never waits. *)
Definition hibernation_block : M unit :=
  update (fun h => set_block_cnt (atomic_inc (block_cnt h)) h).

(** Modelled from the spec: [hibernation_unblock] of
    exynos_drm_hibernation.h decrements the veto count. *)
Definition hibernation_unblock : M unit :=
  update (fun h => set_block_cnt (atomic_dec (block_cnt h)) h).

(** ** exynos_drm_hibernation.c *)

Definition is_camera_operating : M bool :=
  h <- get_hiber ;;
  match cam_op_reg h with
  | None => ret false
  | Some v => ret (negb (Z.land v CAMERA_OPERATION_MASK =? 0))
  end.

Definition exynos_hibernation_trig_reset : M unit :=
  d <- deref_decon ;;
  let fps := to_int (if bts_fps d =? 0 then HIBERNATION_ENTRY_DEFAULT_FPS
                     else bts_fps d) in
  let entry_cnt :=
    to_int (DIV_ROUND_UP (to_int (fps * HIBERNATION_ENTRY_MIN_TIME_MS))
                         MSEC_PER_SEC) in
  let entry_cnt :=
    if entry_cnt <? HIBERNATION_ENTRY_MIN_ENTRY_CNT
    then HIBERNATION_ENTRY_MIN_ENTRY_CNT else entry_cnt in
  update (set_trig_cnt entry_cnt).

(** [a && b] of C: [b] is evaluated only when [a] is true. *)
Definition andM (a b : M bool) : M bool :=
  x <- a ;; if x then b else ret false.
Definition notM (a : M bool) : M bool := x <- a ;; ret (negb x).
Infix "&&&" := andM (at level 40, left associativity).

Definition trig_cnt_dec_and_test : M bool :=
  h <- get_hiber ;;
  let r := atomic_dec_and_test (trig_cnt h) in
  update (set_trig_cnt (snd r)) ;; ret (fst r).

Definition exynos_hibernation_check : M bool :=
  notM is_hibernaton_blocked &&&
  notM is_camera_operating &&&
  trig_cnt_dec_and_test.

Definition exynos_hibernation_enter : M unit :=
  h <- get_hiber ;;
  match decon h with
  | None => ret tt
  | Some _ =>
      mutex_lock ;;
      hibernation_block ;;
      d <- deref_decon ;;
      when (decon_state_eqb (state d) DECON_STATE_ON)
        (w <- decon_get_wb ;;
         update (set_wb w) ;;
         h <- get_hiber ;;
         match wb h with
         | Some w => writeback_enter_hibernation w
         | None => ret tt
         end ;;
         decon_enter_hibernation ;;
         l <- decon_get_dsim ;;
         update (set_dsim l) ;;
         h <- get_hiber ;;
         match dsim h with
         | Some l => dsim_enter_ulps l
         | None => ret tt
         end ;;
         bts_release_bw ;;
         pm_runtime_put_sync) ;;
      hibernation_unblock ;;
      mutex_unlock
  end.

Definition exynos_hibernation_exit : M Z :=
  h <- get_hiber ;;
  match decon h with
  | None => ret (- ENODEV)
  | Some _ =>
      hibernation_block ;;
      kthread_cancel_work_sync ;;
      mutex_lock ;;
      exynos_hibernation_trig_reset ;;
      d <- deref_decon ;;
      r <- (if decon_state_eqb (state d) DECON_STATE_HIBERNATION then
              pm_runtime_get_sync ;;
              h <- get_hiber ;;
              match dsim h with
              | Some l => dsim_exit_ulps l ;; update (set_dsim None)
              | None => ret tt
              end ;;
              decon_exit_hibernation ;;
              h <- get_hiber ;;
              match wb h with
              | Some w => writeback_exit_hibernation w ;; update (set_wb None)
              | None => ret tt
              end ;;
              ret 0
            else ret (- EBUSY)) ;;
      mutex_unlock ;;
      hibernation_unblock ;;
      ret r
  end.

(** Dispatch through [hiber->funcs]. *)
Definition funcs_check (f : exynos_hibernation_funcs) : M bool :=
  match f with hibernation_funcs => exynos_hibernation_check end.
Definition funcs_enter (f : exynos_hibernation_funcs) : M unit :=
  match f with hibernation_funcs => exynos_hibernation_enter end.
Definition funcs_exit (f : exynos_hibernation_funcs) : M Z :=
  match f with hibernation_funcs => exynos_hibernation_exit end.

(** The argument of the exported entry point: NULL when hibernation is not
    supported, otherwise the controller of the world. *)
Inductive hiber_ptr : Type :=
| NULL
| HIBER.

Definition hibernation_block_exit (p : hiber_ptr) : M bool :=
  match p with
  | NULL => ret false
  | HIBER =>
      hibernation_block ;;
      h <- get_hiber ;;
      match funcs h with
      | None => ret true
      | Some f => r <- funcs_exit f ;; ret (r =? 0)
      end
  end.

Definition exynos_hibernation_handler : M unit :=
  h <- get_hiber ;;
  match funcs h with
  | None => fault
  | Some f =>
      ok <- funcs_check f ;;
      if ok then funcs_enter f else ret tt
  end.

(** What registration reads from the device tree: the "hibernation"
    property, and the "camera-operation" child node ([None] when there is
    none, [Some None] when mapping its register fails, [Some (Some v)] when
    the register is mapped and reads [v]). *)
Record device_node : Type := mk_node {
  of_hibernation : bool;
  of_camera_operation : option (option Z)
}.

(** A freshly zeroed [struct exynos_hibernation]. *)
Definition kzalloc_hiber : exynos_hibernation :=
  mk_hiber 0 0 None false None None None None false.

(** [alloc_ok] tells whether [devm_kzalloc] succeeds. *)
Definition exynos_hibernation_register (decon : decon_device)
  (np : device_node) (alloc_ok : bool) : option exynos_hibernation :=
  if negb (of_hibernation np) then None
  else if negb alloc_ok then None
  else
    let hibernation := kzalloc_hiber in
    let mapped :=
      match of_camera_operation np with
      | None => Some (set_cam_op_reg None hibernation)
      | Some None => None
      | Some (Some v) => Some (set_cam_op_reg (Some v) hibernation)
      end in
    match mapped with
    | None => None
    | Some hibernation =>
        let hibernation := set_decon (Some decon) hibernation in
        let hibernation := set_funcs (Some hibernation_funcs) hibernation in
        let hibernation := set_lock false hibernation in
        match exynos_hibernation_trig_reset (mk_world hibernation []) with
        | Ok _ w => Some (set_work false (set_block_cnt 0 (hiber w)))
        | _ => None
        end
    end.

(** ** Sequences of calls *)

Inductive op : Type :=
| Op_block
| Op_unblock
| Op_check
| Op_enter
| Op_exit
| Op_block_exit
| Op_handler.

Definition run_op (o : op) : M unit :=
  match o with
  | Op_block => hibernation_block
  | Op_unblock => hibernation_unblock
  | Op_check => exynos_hibernation_check ;; ret tt
  | Op_enter => exynos_hibernation_enter
  | Op_exit => exynos_hibernation_exit ;; ret tt
  | Op_block_exit => hibernation_block_exit HIBER ;; ret tt
  | Op_handler => exynos_hibernation_handler
  end.

Fixpoint run (os : list op) : M unit :=
  match os with
  | [] => ret tt
  | o :: os' => run_op o ;; run os'
  end.

(** [n] eligibility checks in a row; the answers, oldest first. *)
Fixpoint checks (n : nat) : M (list bool) :=
  match n with
  | O => ret []
  | S n' => b <- exynos_hibernation_check ;; bs <- checks n' ;; ret (b :: bs)
  end.

(** [n] decrement-and-test steps on the trigger counter; the answers,
    oldest first. *)
Fixpoint ticks (n : nat) : M (list bool) :=
  match n with
  | O => ret []
  | S n' => b <- trig_cnt_dec_and_test ;; bs <- ticks n' ;; ret (b :: bs)
  end.

(** ** The orders of calls, as the specification words them *)

Definition opt_call {A : Type} (e : A -> event) (o : option A) : list event :=
  match o with
  | Some a => [e a]
  | None => []
  end.

(** Enter: writeback (if attached), pipeline, link (if attached),
    bandwidth, power domain. *)
Definition spec_enter_order (d : decon_device) : list event :=
  opt_call Ev_writeback_enter_hibernation (attached_wb d)
  ++ [Ev_decon_enter_hibernation]
  ++ opt_call Ev_dsim_enter_ulps (attached_dsim d)
  ++ [Ev_release_bw; Ev_pm_runtime_put_sync].

(** Exit: power domain, link (if captured), pipeline, writeback (if
    captured). *)
Definition spec_exit_order (l : option dsim_device)
  (w : option writeback_device) : list event :=
  [Ev_pm_runtime_get_sync]
  ++ opt_call Ev_dsim_exit_ulps l
  ++ [Ev_decon_exit_hibernation]
  ++ opt_call Ev_writeback_exit_hibernation w.

(** [ceil(fps * MIN_IDLE_MS / 1000)], at least 1, over the integers. *)
Definition ceil_div (a b : Z) : Z := - ((- a) / b).
Definition spec_entry_cnt (fps : Z) : Z :=
  Z.max 1 (ceil_div (fps * 50) 1000).

(** The camera-activity source reports inactive, or there is none. *)
Definition camera_inactive (h : exynos_hibernation) : Prop :=
  match cam_op_reg h with
  | None => True
  | Some v => Z.land v CAMERA_OPERATION_MASK = 0
  end.

(** The runtime-PM discipline along a log: a reference that is held may
    only be put, one that is not held may only be got.  [pm_discipline held
    l] is [Some held'] when the log [l] respects this, [held'] telling
    whether the reference is held at its end. *)
Fixpoint pm_discipline (held : bool) (l : list event) : option bool :=
  match l with
  | [] => Some held
  | Ev_pm_runtime_put_sync :: l' =>
      if held then pm_discipline false l' else None
  | Ev_pm_runtime_get_sync :: l' =>
      if held then None else pm_discipline true l'
  | _ :: l' => pm_discipline held l'
  end.

(** ** Closed forms *)

(** What a reset stores, as a function of the pipeline. *)
Definition reset_cnt (d : decon_device) : Z :=
  let fps := to_int (if bts_fps d =? 0 then HIBERNATION_ENTRY_DEFAULT_FPS
                     else bts_fps d) in
  let entry_cnt :=
    to_int (DIV_ROUND_UP (to_int (fps * HIBERNATION_ENTRY_MIN_TIME_MS))
                         MSEC_PER_SEC) in
  if entry_cnt <? HIBERNATION_ENTRY_MIN_ENTRY_CNT
  then HIBERNATION_ENTRY_MIN_ENTRY_CNT else entry_cnt.

(** The worlds [enter] and [exit] return, in closed form. *)
Definition after_enter (h : exynos_hibernation) (d : decon_device)
  : exynos_hibernation :=
  set_decon
    (Some (set_dev_usage (dev_usage d - 1) (set_state DECON_STATE_HIBERNATION d)))
    (set_dsim (attached_dsim d) (set_wb (attached_wb d) h)).

Definition after_exit (h : exynos_hibernation) (d : decon_device)
  : exynos_hibernation :=
  set_wb None
    (set_dsim None
       (set_decon
          (Some (set_state DECON_STATE_ON (set_dev_usage (dev_usage d + 1) d)))
          (set_work false (set_trig_cnt (reset_cnt d) h)))).

(** ** What one call can do to the world

    Three counters of bookkeeping aside (the countdown, the block count and
    the queued work), a call either leaves the controller alone, or performs
    the enter sequence on an active pipeline, or performs the exit sequence
    on a hibernating one. *)

(** Two controllers that differ in bookkeeping only. *)
Definition same_core (h h' : exynos_hibernation) : Prop :=
  cam_op_reg h' = cam_op_reg h /\ lock h' = lock h /\ decon h' = decon h /\
  dsim h' = dsim h /\ wb h' = wb h /\ funcs h' = funcs h /\
  is_int (block_cnt h').

(** The three things a call can have done. *)
Inductive effect (w w' : world) : Prop :=
| Eff_keep :
    same_core (hiber w) (hiber w') -> log w' = log w -> effect w w'
| Eff_enter (d : decon_device) :
    decon (hiber w) = Some d -> state d = DECON_STATE_ON ->
    same_core (after_enter (hiber w) d) (hiber w') ->
    log w' = log w ++ spec_enter_order d -> effect w w'
| Eff_exit (d : decon_device) :
    decon (hiber w) = Some d -> state d = DECON_STATE_HIBERNATION ->
    same_core (after_exit (hiber w) d) (hiber w') ->
    log w' = log w ++ spec_exit_order (dsim (hiber w)) (wb (hiber w)) ->
    effect w w'.

(** What every call needs in order to return: a free mutex and an
    operations table; the block count is an [int]. *)
Definition ready (w : world) : Prop :=
  lock (hiber w) = false /\ funcs (hiber w) <> None /\
  is_int (block_cnt (hiber w)).

(** ** Invariants of the controller *)

(** The pipeline reads HIBERNATING. *)
Definition hibernating (d : decon_device) : bool :=
  decon_state_eqb (state d) DECON_STATE_HIBERNATION.

(** The log respects the runtime-PM discipline, the reference is held
    exactly when the pipeline is not hibernating, and the usage count is
    [u0] then and [u0 - 1] otherwise. *)
Definition pm_inv (u0 : Z) (w : world) : Prop :=
  exists d,
    decon (hiber w) = Some d /\
    pm_discipline true (log w) = Some (negb (hibernating d)) /\
    dev_usage d = (if hibernating d then u0 - 1 else u0).

(** While the pipeline is not hibernating, and so while it is ACTIVE,
    neither the link handle nor the writeback handle is held. *)
Definition handles_inv (w : world) : Prop :=
  forall d, decon (hiber w) = Some d ->
    state d <> DECON_STATE_HIBERNATION ->
    dsim (hiber w) = None /\ wb (hiber w) = None.

(** ** Concrete worlds *)

(** A 60 Hz pipeline, active, with a writeback path and a link attached and
    one runtime-PM reference held. *)
Definition demo_decon : decon_device :=
  mk_decon DECON_STATE_ON 60 (Some 7%nat) (Some 9%nat) 1.

(** The controller registration builds for it: countdown 3, nothing
    blocked, no camera register, nothing captured. *)
Definition demo_hiber : exynos_hibernation :=
  mk_hiber 3 0 None false (Some demo_decon) None None
           (Some hibernation_funcs) false.

(** The same controller once the pipeline hibernates. *)
Definition demo_hibernating : exynos_hibernation :=
  mk_hiber 3 0 None false
           (Some (mk_decon DECON_STATE_HIBERNATION 60 (Some 7%nat) (Some 9%nat) 0))
           (Some 9%nat) (Some 7%nat) (Some hibernation_funcs) false.

(** Variations: one veto held; the camera register reading busy; an entry
    attempt queued; no pipeline at all. *)
Definition demo_blocked : exynos_hibernation := set_block_cnt 1 demo_hiber.
Definition demo_camera : exynos_hibernation :=
  set_cam_op_reg (Some 1) demo_hiber.
Definition demo_queued : exynos_hibernation := set_work true demo_hiber.
Definition demo_no_decon : exynos_hibernation :=
  mk_hiber 0 0 None false None None None (Some hibernation_funcs) false.

(** A pipeline at an absurd refresh rate, for which [fps * 50] no longer
    fits an [int]. *)
Definition demo_overflow : exynos_hibernation :=
  set_decon (Some (mk_decon DECON_STATE_ON 42949673 None None 1)) demo_hiber.

(** ** Tear-down, repeated handler runs and what stays fixed *)

(** Calls into the I/O mapping layer. *)
Inductive io_event : Type :=
| Io_iounmap.

(** [exynos_hibernation_destroy]: the unmapping calls it makes.  The
    controller itself is left as it is. *)
Definition exynos_hibernation_destroy (p : hiber_ptr) (w : world)
  : list io_event :=
  match p with
  | NULL => []
  | HIBER =>
      match cam_op_reg (hiber w) with
      | Some _ => [Io_iounmap]
      | None => []
      end
  end.

(** The worker running the handler [n] times in a row. *)
Definition handlers (n : nat) : M unit := run (repeat Op_handler n).

(** A call dereferenced a NULL pointer. *)
Definition is_fault {A : Type} (r : result A) : bool :=
  match r with
  | Fault => true
  | _ => false
  end.

(** What registration fixes once and for all: the camera register, the
    operations table, and the pipeline's rate and attachments. *)
Definition same_config (h h' : exynos_hibernation) : Prop :=
  cam_op_reg h' = cam_op_reg h /\ funcs h' = funcs h /\
  match decon h, decon h' with
  | Some d, Some d' =>
      bts_fps d' = bts_fps d /\ attached_wb d' = attached_wb d /\
      attached_dsim d' = attached_dsim d
  | None, None => True
  | _, _ => False
  end.

(** A controller whose next eligible check fires, and one whose countdown
    has already fired. *)
Definition demo_due : exynos_hibernation := set_trig_cnt 1 demo_hiber.
Definition demo_fired : exynos_hibernation := set_trig_cnt 0 demo_hiber.

(** The controller of a 120 Hz pipeline. *)
Definition demo_fast_decon : decon_device :=
  mk_decon DECON_STATE_ON 120 None None 1.
Definition demo_fast : exynos_hibernation :=
  set_decon (Some demo_fast_decon) demo_hiber.

(** A device-tree node with a camera register that maps and reads 0. *)
Definition demo_node : device_node := mk_node true (Some (Some 0)).

(** ** Arithmetic of the 32-bit counters *)

Lemma to_int_range (v : Z) : is_int (to_int v).
Proof.
  unfold is_int, to_int, INT_MIN, INT_MAX.
  change (2 ^ 31) with 2147483648; change (2 ^ 32) with 4294967296.
  pose proof (Z.mod_pos_bound (v + 2147483648) 4294967296 eq_refl). lia.
Qed.

Lemma to_int_id (v : Z) : is_int v -> to_int v = v.
Proof.
  unfold is_int, to_int, INT_MIN, INT_MAX.
  change (2 ^ 31) with 2147483648; change (2 ^ 32) with 4294967296.
  intros Hv. rewrite Z.mod_small by lia. lia.
Qed.

Lemma to_int_shift (v k : Z) : to_int (v + k * 2 ^ 32) = to_int v.
Proof.
  unfold to_int.
  replace (v + k * 2 ^ 32 + 2 ^ 31) with (v + 2 ^ 31 + k * 2 ^ 32) by ring.
  now rewrite Z.mod_add by discriminate.
Qed.

Lemma to_int_congr (v : Z) : exists k, to_int v = v + k * 2 ^ 32.
Proof.
  unfold to_int. exists (- ((v + 2 ^ 31) / 2 ^ 32)).
  pose proof (Z.div_mod (v + 2 ^ 31) (2 ^ 32) ltac:(discriminate)). lia.
Qed.

Lemma atomic_dec_inc (c : Z) : is_int c -> atomic_dec (atomic_inc c) = c.
Proof.
  intros Hc. unfold atomic_dec, atomic_inc.
  destruct (to_int_congr (c + 1)) as [k Hk]. rewrite Hk.
  replace (c + 1 + k * 2 ^ 32 - 1) with (c + k * 2 ^ 32) by ring.
  rewrite to_int_shift. now apply to_int_id.
Qed.

Lemma atomic_inc_small (c : Z) :
  INT_MIN <= c < INT_MAX -> atomic_inc c = c + 1.
Proof.
  intros Hc. apply to_int_id. unfold is_int, INT_MIN, INT_MAX in *. lia.
Qed.

Lemma atomic_dec_zero (c : Z) : is_int c -> (atomic_dec c = 0 <-> c = 1).
Proof.
  intros Hc. unfold atomic_dec. split.
  - intros H0. destruct (to_int_congr (c - 1)) as [k Hk].
    unfold is_int, INT_MIN, INT_MAX in Hc.
    change (2 ^ 31) with 2147483648 in Hc.
    change (2 ^ 32) with 4294967296 in Hk. lia.
  - intros ->. reflexivity.
Qed.

(** ** Running the code symbolically *)

Ltac run_code :=
  cbv beta iota zeta delta
    [exynos_hibernation_enter exynos_hibernation_exit exynos_hibernation_check
     exynos_hibernation_trig_reset exynos_hibernation_handler
     hibernation_block_exit funcs_check funcs_enter funcs_exit
     is_camera_operating is_hibernaton_blocked hibernation_block
     hibernation_unblock trig_cnt_dec_and_test andM notM
     writeback_enter_hibernation writeback_exit_hibernation dsim_enter_ulps
     dsim_exit_ulps bts_release_bw decon_enter_hibernation
     decon_exit_hibernation pm_runtime_put_sync pm_runtime_get_sync
     decon_get_wb decon_get_dsim mutex_lock mutex_unlock
     kthread_cancel_work_sync deref_decon update_decon
     bind ret get_hiber update call fault when
     set_state set_dev_usage set_trig_cnt set_block_cnt set_lock set_decon
     set_dsim set_wb set_work set_cam_op_reg set_funcs
     hiber log trig_cnt block_cnt cam_op_reg lock decon dsim wb funcs work
     state bts_fps attached_wb attached_dsim dev_usage
     decon_state_eqb atomic_dec_and_test fst snd negb
     spec_enter_order spec_exit_order opt_call atomic_dec].

Ltac norm_log := rewrite <- ?app_assoc; cbn [app].

Lemma trig_reset_eq (h : exynos_hibernation) (l : list event)
  (d : decon_device) :
  decon h = Some d ->
  exynos_hibernation_trig_reset (mk_world h l)
  = Ok tt (mk_world (set_trig_cnt (reset_cnt d) h) l).
Proof.
  destruct h; cbn [decon]; intros ->.
  run_code. unfold reset_cnt. reflexivity.
Qed.

Lemma reset_cnt_min (d : decon_device) :
  HIBERNATION_ENTRY_MIN_ENTRY_CNT <= reset_cnt d.
Proof.
  unfold reset_cnt. cbv zeta.
  destruct (_ <? HIBERNATION_ENTRY_MIN_ENTRY_CNT) eqn:E.
  - lia.
  - now apply Z.ltb_ge in E.
Qed.

Lemma enter_no_decon (w : world) :
  decon (hiber w) = None -> exynos_hibernation_enter w = Ok tt w.
Proof.
  destruct w as [h l]; destruct h; cbn [hiber decon]; intros ->. reflexivity.
Qed.

Lemma enter_not_on (h : exynos_hibernation) (l : list event)
  (d : decon_device) :
  decon h = Some d -> state d <> DECON_STATE_ON ->
  lock h = false -> is_int (block_cnt h) ->
  exynos_hibernation_enter (mk_world h l) = Ok tt (mk_world h l).
Proof.
  destruct h; cbn [decon lock block_cnt]; intros -> Hs -> Hb.
  destruct d as [[] ? ? ? ?]; cbn [state] in Hs; try congruence;
    rewrite <- (atomic_dec_inc _ Hb) at 2; run_code; reflexivity.
Qed.

Lemma enter_on (h : exynos_hibernation) (l : list event) (d : decon_device) :
  decon h = Some d -> state d = DECON_STATE_ON ->
  lock h = false -> is_int (block_cnt h) ->
  exynos_hibernation_enter (mk_world h l)
  = Ok tt (mk_world (after_enter h d) (l ++ spec_enter_order d)).
Proof.
  destruct h; destruct d as [s f aw ad u];
    cbn [decon lock block_cnt state]; intros -> -> -> Hb.
  unfold after_enter. rewrite <- (atomic_dec_inc _ Hb) at 2.
  destruct aw, ad; run_code; norm_log; reflexivity.
Qed.

Lemma exit_no_decon (w : world) :
  decon (hiber w) = None -> exynos_hibernation_exit w = Ok (- ENODEV) w.
Proof.
  destruct w as [h l]; destruct h; cbn [hiber decon]; intros ->. reflexivity.
Qed.

Lemma exit_not_hibernating (h : exynos_hibernation) (l : list event)
  (d : decon_device) :
  decon h = Some d -> state d <> DECON_STATE_HIBERNATION ->
  lock h = false -> is_int (block_cnt h) ->
  exynos_hibernation_exit (mk_world h l)
  = Ok (- EBUSY) (mk_world (set_work false (set_trig_cnt (reset_cnt d) h)) l).
Proof.
  destruct h; cbn [decon lock block_cnt]; intros -> Hs -> Hb.
  destruct d as [[] ? ? ? ?]; cbn [state] in Hs; try congruence;
    rewrite <- (atomic_dec_inc _ Hb) at 2;
    unfold reset_cnt; run_code; reflexivity.
Qed.

Lemma exit_hibernating (h : exynos_hibernation) (l : list event)
  (d : decon_device) :
  decon h = Some d -> state d = DECON_STATE_HIBERNATION ->
  lock h = false -> is_int (block_cnt h) ->
  exynos_hibernation_exit (mk_world h l)
  = Ok 0 (mk_world (after_exit h d) (l ++ spec_exit_order (dsim h) (wb h))).
Proof.
  destruct h as [tc bc cam lk dc ds w f wk]; destruct d as [s fp aw ad u];
    cbn [decon lock block_cnt state dsim wb]; intros -> -> -> Hb.
  unfold after_exit, reset_cnt. rewrite <- (atomic_dec_inc _ Hb) at 2.
  destruct ds, w; run_code; norm_log; reflexivity.
Qed.

(** The eligibility check, in closed form. *)
Lemma check_blocked (h : exynos_hibernation) (l : list event) :
  block_cnt h <> 0 ->
  exynos_hibernation_check (mk_world h l) = Ok false (mk_world h l).
Proof.
  destruct h; cbn [block_cnt]; intros Hb. run_code.
  apply Z.eqb_neq in Hb. rewrite Hb. reflexivity.
Qed.

Lemma check_camera (h : exynos_hibernation) (l : list event) :
  block_cnt h = 0 -> ~ camera_inactive h ->
  exynos_hibernation_check (mk_world h l) = Ok false (mk_world h l).
Proof.
  destruct h as [tc bc cam lk dc ds w f wk];
    unfold camera_inactive; cbn [block_cnt cam_op_reg]; intros -> Hc.
  destruct cam as [v|]; cbv beta iota in Hc; [|tauto].
  run_code; change (0 =? 0) with true; run_code.
  apply Z.eqb_neq in Hc. rewrite Hc. reflexivity.
Qed.

Lemma check_ticks (h : exynos_hibernation) (l : list event) :
  block_cnt h = 0 -> camera_inactive h ->
  exynos_hibernation_check (mk_world h l)
  = Ok (atomic_dec (trig_cnt h) =? 0)
       (mk_world (set_trig_cnt (atomic_dec (trig_cnt h)) h) l).
Proof.
  destruct h as [tc bc cam lk dc ds w f wk];
    unfold camera_inactive; cbn [block_cnt cam_op_reg]; intros -> Hc.
  destruct cam as [v|]; cbv beta iota in Hc;
    run_code; change (0 =? 0) with true; run_code; [rewrite Hc|];
    reflexivity.
Qed.

Lemma camera_inactive_dec (h : exynos_hibernation) :
  camera_inactive h \/ ~ camera_inactive h.
Proof.
  unfold camera_inactive. destruct (cam_op_reg h) as [v|]; [|now left].
  destruct (Z.eq_dec (Z.land v CAMERA_OPERATION_MASK) 0); tauto.
Qed.

(** ** The concrete worlds are what the code builds *)

Lemma demo_register :
  exynos_hibernation_register demo_decon (mk_node true None) true
  = Some demo_hiber.
Proof. reflexivity. Qed.

Lemma is_int_small (v : Z) : -1000 <= v <= 1000 -> is_int v.
Proof. unfold is_int, INT_MIN, INT_MAX. lia. Qed.

(** ** The eligibility check *)

(** C1, as the code has it.  The check always returns and makes no
    subsystem call.  It answers true exactly when the block count is zero,
    the camera is inactive (or has no register) and the decrement brings the
    trigger counter to zero.  The counter is decremented when the first two
    conditions hold, and only then: [&&] does not evaluate its right operand
    when the left one is false, so a vetoed or camera-busy check leaves the
    countdown as it was. *)
Theorem check_eligibility (h : exynos_hibernation) (l : list event) :
  exists b w',
    exynos_hibernation_check (mk_world h l) = Ok b w' /\
    (b = true <->
     block_cnt h = 0 /\ camera_inactive h /\ atomic_dec (trig_cnt h) = 0) /\
    log w' = l /\
    (block_cnt h = 0 /\ camera_inactive h ->
     hiber w' = set_trig_cnt (atomic_dec (trig_cnt h)) h) /\
    (~ (block_cnt h = 0 /\ camera_inactive h) -> hiber w' = h) /\
    (is_int (trig_cnt h) -> (atomic_dec (trig_cnt h) = 0 <-> trig_cnt h = 1)).
Proof.
  assert (Hz : is_int (trig_cnt h) ->
               (atomic_dec (trig_cnt h) = 0 <-> trig_cnt h = 1))
    by apply atomic_dec_zero.
  destruct (Z.eq_dec (block_cnt h) 0) as [Hb|Hb].
  - destruct (camera_inactive_dec h) as [Hc|Hc].
    + eexists _, _. split; [apply (check_ticks h l Hb Hc)|].
      cbn [log hiber]. repeat split; try tauto.
      * now apply Z.eqb_eq.
      * intros (_ & _ & H0). now apply Z.eqb_eq.
    + eexists _, _. split; [apply (check_camera h l Hb Hc)|].
      cbn [log hiber]. repeat split; try tauto; try discriminate.
  - eexists _, _. split; [apply (check_blocked h l Hb)|].
    cbn [log hiber]. repeat split; try tauto; try discriminate.
Qed.

Lemma check_eligibility_witness :
  exists b w',
    exynos_hibernation_check (mk_world demo_hiber []) = Ok b w' /\
    (b = true <->
     block_cnt demo_hiber = 0 /\ camera_inactive demo_hiber /\
     atomic_dec (trig_cnt demo_hiber) = 0) /\
    log w' = [] /\
    (block_cnt demo_hiber = 0 /\ camera_inactive demo_hiber ->
     hiber w' = set_trig_cnt (atomic_dec (trig_cnt demo_hiber)) demo_hiber) /\
    (~ (block_cnt demo_hiber = 0 /\ camera_inactive demo_hiber) ->
     hiber w' = demo_hiber) /\
    (is_int (trig_cnt demo_hiber) ->
     (atomic_dec (trig_cnt demo_hiber) = 0 <-> trig_cnt demo_hiber = 1)).
Proof. exact (check_eligibility demo_hiber []). Defined.

(** C1 as written fails: with one veto held, or with the camera busy, the
    check answers false and the trigger counter is not decremented. *)
Lemma check_vetoed_keeps_countdown :
  exynos_hibernation_check (mk_world demo_blocked [])
  = Ok false (mk_world demo_blocked []) /\
  exynos_hibernation_check (mk_world demo_camera [])
  = Ok false (mk_world demo_camera []) /\
  trig_cnt demo_blocked <> atomic_dec (trig_cnt demo_blocked) /\
  trig_cnt demo_camera <> atomic_dec (trig_cnt demo_camera).
Proof. repeat split; discriminate. Qed.

(** ** Enter and exit *)

(** C9.  Every execution of [enter] and every execution of [exit] returns
    with the block count it started with: on the paths that take the
    internal block it is released again, and the early returns for a
    missing pipeline take none and leave the whole world as it was. *)
Theorem enter_exit_keep_block_cnt (h : exynos_hibernation) (l : list event) :
  lock h = false -> is_int (block_cnt h) ->
  (exists w',
      exynos_hibernation_enter (mk_world h l) = Ok tt w' /\
      block_cnt (hiber w') = block_cnt h /\
      (decon h = None -> w' = mk_world h l)) /\
  (exists r w',
      exynos_hibernation_exit (mk_world h l) = Ok r w' /\
      block_cnt (hiber w') = block_cnt h /\
      (decon h = None -> w' = mk_world h l)).
Proof.
  intros Hl Hb. destruct (decon h) as [d|] eqn:Hd.
  - destruct (state d) eqn:Hs; split.
    all: try (eexists; split;
              [ first [ apply (enter_on h l d); congruence
                      | apply (enter_not_on h l d); congruence ]
              | split; [destruct h; reflexivity | discriminate] ]).
    all: eexists _, _; split;
      [ first [ apply (exit_hibernating h l d); congruence
              | apply (exit_not_hibernating h l d); congruence ]
      | split; [destruct h; reflexivity | discriminate] ].
  - split.
    + eexists. split; [now apply enter_no_decon|]. now split.
    + eexists _, _. split; [now apply exit_no_decon|]. now split.
Qed.

Lemma enter_exit_keep_block_cnt_witness :
  lock demo_blocked = false /\ is_int (block_cnt demo_blocked) /\
  (exists w',
      exynos_hibernation_enter (mk_world demo_blocked []) = Ok tt w' /\
      block_cnt (hiber w') = block_cnt demo_blocked /\
      (decon demo_blocked = None -> w' = mk_world demo_blocked [])) /\
  (exists r w',
      exynos_hibernation_exit (mk_world demo_blocked []) = Ok r w' /\
      block_cnt (hiber w') = block_cnt demo_blocked /\
      (decon demo_blocked = None -> w' = mk_world demo_blocked [])).
Proof.
  split; [reflexivity|]. split; [apply is_int_small; simpl; lia|].
  apply (enter_exit_keep_block_cnt demo_blocked []);
    [reflexivity | apply is_int_small; simpl; lia].
Defined.

(** C7.  [enter] on a pipeline that is not ACTIVE is a no-op that returns
    normally: no subsystem is called, the pipeline and the captured link and
    writeback handles are as before, the block count is back to its value
    and the mutex is free again; in fact the whole world is unchanged. *)
Theorem enter_not_active_noop (h : exynos_hibernation) (l : list event)
  (d : decon_device) :
  decon h = Some d -> state d <> DECON_STATE_ON ->
  lock h = false -> is_int (block_cnt h) ->
  exists w',
    exynos_hibernation_enter (mk_world h l) = Ok tt w' /\
    log w' = l /\
    decon (hiber w') = Some d /\
    dsim (hiber w') = dsim h /\ wb (hiber w') = wb h /\
    block_cnt (hiber w') = block_cnt h /\
    lock (hiber w') = false /\
    w' = mk_world h l.
Proof.
  intros Hd Hs Hl Hb. exists (mk_world h l).
  split; [now apply (enter_not_on h l d)|].
  cbn [log hiber]. repeat split; assumption.
Qed.

Lemma enter_not_active_noop_witness :
  decon demo_hibernating
  = Some (mk_decon DECON_STATE_HIBERNATION 60 (Some 7%nat) (Some 9%nat) 0) /\
  lock demo_hibernating = false /\ is_int (block_cnt demo_hibernating) /\
  exists w',
    exynos_hibernation_enter (mk_world demo_hibernating []) = Ok tt w' /\
    log w' = [] /\
    decon (hiber w')
    = Some (mk_decon DECON_STATE_HIBERNATION 60 (Some 7%nat) (Some 9%nat) 0) /\
    dsim (hiber w') = dsim demo_hibernating /\
    wb (hiber w') = wb demo_hibernating /\
    block_cnt (hiber w') = block_cnt demo_hibernating /\
    lock (hiber w') = false /\
    w' = mk_world demo_hibernating [].
Proof.
  split; [reflexivity|]. split; [reflexivity|].
  split; [apply is_int_small; simpl; lia|].
  apply (enter_not_active_noop demo_hibernating [] _ eq_refl);
    [discriminate | reflexivity | apply is_int_small; simpl; lia].
Defined.

Ltac outcome_case d :=
  try discriminate; auto;
  try solve
    [ exists d; auto
    | match goal with
      | H : exists _, _ /\ _ |- _ =>
          destruct H as (? & ? & ?); congruence
      end
    | congruence ].

(** C4.  [exit] returns one of three values.  It returns [-ENODEV]
    (UNAVAILABLE) exactly when the controller has no pipeline; it returns
    [-EBUSY] (ALREADY_ACTIVE, nothing done) exactly when the pipeline is
    there and not hibernating; it returns 0 (WOKEN) exactly when the
    pipeline was hibernating, and then the exit sequence has run and the
    pipeline is active.  Unless it returns 0 no subsystem is called. *)
Theorem exit_outcomes (h : exynos_hibernation) (l : list event) :
  lock h = false -> is_int (block_cnt h) ->
  exists r w',
    exynos_hibernation_exit (mk_world h l) = Ok r w' /\
    (r = - ENODEV \/ r = - EBUSY \/ r = 0) /\
    (r = - ENODEV <-> decon h = None) /\
    (r = - EBUSY <->
     exists d, decon h = Some d /\ state d <> DECON_STATE_HIBERNATION) /\
    (r = 0 <->
     exists d, decon h = Some d /\ state d = DECON_STATE_HIBERNATION) /\
    (r = 0 ->
     log w' = l ++ spec_exit_order (dsim h) (wb h) /\
     exists d', decon (hiber w') = Some d' /\ state d' = DECON_STATE_ON) /\
    (r <> 0 -> log w' = l).
Proof.
  intros Hl Hb. destruct (decon h) as [d|] eqn:Hd.
  - destruct (decon_state_eqb (state d) DECON_STATE_HIBERNATION) eqn:Hs.
    + assert (Hh : state d = DECON_STATE_HIBERNATION)
        by (destruct (state d); try discriminate; reflexivity).
      exists 0, (mk_world (after_exit h d)
                          (l ++ spec_exit_order (dsim h) (wb h))).
      split; [now apply exit_hibernating|].
      cbn [log hiber]. repeat split; intros; outcome_case d.
      destruct h; eexists; split; reflexivity.
    + assert (Hh : state d <> DECON_STATE_HIBERNATION)
        by (intros E; rewrite E in Hs; discriminate).
      exists (- EBUSY),
        (mk_world (set_work false (set_trig_cnt (reset_cnt d) h)) l).
      split; [now apply exit_not_hibernating|].
      cbn [log hiber]. repeat split; intros; outcome_case d.
  - exists (- ENODEV), (mk_world h l).
    split; [now apply exit_no_decon|].
    cbn [log hiber]. repeat split; intros; outcome_case demo_decon.
Qed.

Lemma exit_outcomes_witness :
  lock demo_hibernating = false /\ is_int (block_cnt demo_hibernating) /\
  exists r w',
    exynos_hibernation_exit (mk_world demo_hibernating []) = Ok r w' /\
    (r = - ENODEV \/ r = - EBUSY \/ r = 0) /\
    (r = - ENODEV <-> decon demo_hibernating = None) /\
    (r = - EBUSY <->
     exists d, decon demo_hibernating = Some d /\
               state d <> DECON_STATE_HIBERNATION) /\
    (r = 0 <->
     exists d, decon demo_hibernating = Some d /\
               state d = DECON_STATE_HIBERNATION) /\
    (r = 0 ->
     log w' = [] ++ spec_exit_order (dsim demo_hibernating)
                                    (wb demo_hibernating) /\
     exists d', decon (hiber w') = Some d' /\ state d' = DECON_STATE_ON) /\
    (r <> 0 -> log w' = []).
Proof.
  split; [reflexivity|]. split; [apply is_int_small; simpl; lia|].
  apply (exit_outcomes demo_hibernating []);
    [reflexivity | apply is_int_small; simpl; lia].
Defined.

(** C5, as the code has it.  With a pipeline that is present and not
    hibernating, [exit] returns [-EBUSY], calls no subsystem and changes
    two things only: the trigger counter, which holds what a reset stores,
    and the queued entry work, which is cancelled.  The counter is reset by
    every [exit] that has a pipeline, whatever the pipeline's state; with no
    pipeline [exit] returns before the reset and changes nothing. *)
Theorem exit_while_active (h : exynos_hibernation) (l : list event) :
  lock h = false -> is_int (block_cnt h) ->
  (forall d, decon h = Some d ->
     exists v,
       exynos_hibernation_trig_reset (mk_world h l)
       = Ok tt (mk_world (set_trig_cnt v h) l) /\
       (exists r w',
           exynos_hibernation_exit (mk_world h l) = Ok r w' /\
           trig_cnt (hiber w') = v) /\
       (state d <> DECON_STATE_HIBERNATION ->
        exynos_hibernation_exit (mk_world h l)
        = Ok (- EBUSY) (mk_world (set_work false (set_trig_cnt v h)) l))) /\
  (decon h = None ->
   exynos_hibernation_exit (mk_world h l) = Ok (- ENODEV) (mk_world h l)).
Proof.
  intros Hl Hb. split.
  - intros d Hd. exists (reset_cnt d).
    split; [now apply trig_reset_eq|]. split.
    + destruct (state d) eqn:Hs.
      * eexists _, _. split; [apply (exit_not_hibernating h l d); congruence|].
        destruct h; reflexivity.
      * eexists _, _. split; [apply (exit_hibernating h l d); congruence|].
        destruct h; reflexivity.
      * eexists _, _. split; [apply (exit_not_hibernating h l d); congruence|].
        destruct h; reflexivity.
    + intros Hs. now apply exit_not_hibernating.
  - intros Hd. now apply (exit_no_decon (mk_world h l)).
Qed.

Lemma exit_while_active_witness :
  lock demo_queued = false /\ is_int (block_cnt demo_queued) /\
  decon demo_queued = Some demo_decon /\
  state demo_decon <> DECON_STATE_HIBERNATION /\
  exists v,
    exynos_hibernation_trig_reset (mk_world demo_queued [])
    = Ok tt (mk_world (set_trig_cnt v demo_queued) []) /\
    (exists r w',
        exynos_hibernation_exit (mk_world demo_queued []) = Ok r w' /\
        trig_cnt (hiber w') = v) /\
    (state demo_decon <> DECON_STATE_HIBERNATION ->
     exynos_hibernation_exit (mk_world demo_queued [])
     = Ok (- EBUSY) (mk_world (set_work false (set_trig_cnt v demo_queued)) [])).
Proof.
  split; [reflexivity|]. split; [apply is_int_small; simpl; lia|].
  split; [reflexivity|]. split; [discriminate|].
  apply (exit_while_active demo_queued []);
    [reflexivity | apply is_int_small; simpl; lia | reflexivity].
Defined.

(** C5 as written fails twice.  On an active pipeline with an entry attempt
    queued, [exit] also takes the work item off the queue, so the trigger
    counter is not the only state it changes; and with no pipeline [exit]
    returns [-ENODEV] with the counter still at its stale value (0 here,
    which no reset stores). *)
Lemma exit_cancels_work_and_skips_reset :
  exynos_hibernation_exit (mk_world demo_queued [])
  = Ok (- EBUSY) (mk_world demo_hiber []) /\
  work demo_queued = true /\ work demo_hiber = false /\
  trig_cnt demo_queued = trig_cnt demo_hiber /\
  exynos_hibernation_exit (mk_world demo_no_decon [])
  = Ok (- ENODEV) (mk_world demo_no_decon []) /\
  trig_cnt demo_no_decon = 0 /\
  trig_cnt demo_no_decon < HIBERNATION_ENTRY_MIN_ENTRY_CNT.
Proof. repeat split. Qed.

(** ** The exported entry point *)

(** C10.  Called with a NULL controller, [hibernation_block_exit] returns
    false and touches nothing: no count is incremented and no exit is
    attempted. *)
Theorem block_exit_null (w : world) :
  exists b w',
    hibernation_block_exit NULL w = Ok b w' /\
    b = false /\
    block_cnt (hiber w') = block_cnt (hiber w) /\
    log w' = log w /\
    w' = w.
Proof.
  exists false, w. unfold hibernation_block_exit, ret.
  repeat split; reflexivity.
Qed.

Lemma block_exit_unfold (h : exynos_hibernation) (l : list event) :
  hibernation_block_exit HIBER (mk_world h l)
  = match funcs h with
    | None => Ok true (mk_world (set_block_cnt (atomic_inc (block_cnt h)) h) l)
    | Some _ =>
        match exynos_hibernation_exit
                (mk_world (set_block_cnt (atomic_inc (block_cnt h)) h) l) with
        | Ok r w' => Ok (r =? 0) w'
        | Blocked => Blocked
        | Fault => Fault
        end
    end.
Proof.
  destruct h as [tc bc cam lk dc ds w f wk].
  unfold hibernation_block_exit, hibernation_block, bind, update, get_hiber,
    ret, funcs_exit.
  cbn [hiber log funcs block_cnt set_block_cnt trig_cnt cam_op_reg lock decon
       dsim wb work].
  destruct f as [[]|]; reflexivity.
Qed.

(** What [hibernation_block_exit] answers and what it leaves behind, seen
    from the caller. *)
Lemma block_exit_answer (h : exynos_hibernation) (l : list event) :
  lock h = false -> is_int (block_cnt h) ->
  exists b w',
    hibernation_block_exit HIBER (mk_world h l) = Ok b w' /\
    block_cnt (hiber w') = atomic_inc (block_cnt h) /\
    (block_cnt h < INT_MAX -> block_cnt (hiber w') = block_cnt h + 1) /\
    (b = true <->
     funcs h = None \/
     exists d, decon h = Some d /\ state d = DECON_STATE_HIBERNATION) /\
    (funcs h <> None ->
     forall d, decon h = Some d -> state d = DECON_STATE_HIBERNATION ->
       log w' = l ++ spec_exit_order (dsim h) (wb h) /\
       exists d', decon (hiber w') = Some d' /\ state d' = DECON_STATE_ON) /\
    (funcs h <> None ->
     forall d', decon (hiber w') = Some d' ->
       state d' <> DECON_STATE_HIBERNATION) /\
    (b = false -> log w' = l).
Proof.
  intros Hl Hb. rewrite block_exit_unfold.
  assert (Hinc : block_cnt h < INT_MAX -> atomic_inc (block_cnt h) = block_cnt h + 1).
  { intros H. apply atomic_inc_small. unfold is_int in Hb. lia. }
  set (h1 := set_block_cnt (atomic_inc (block_cnt h)) h).
  assert (Hl1 : lock h1 = false) by (destruct h; exact Hl).
  assert (Hb1 : is_int (block_cnt h1))
    by (destruct h; apply to_int_range).
  assert (Hc1 : block_cnt h1 = atomic_inc (block_cnt h))
    by (destruct h; reflexivity).
  assert (Hd1 : decon h1 = decon h) by (destruct h; reflexivity).
  assert (Hs1 : dsim h1 = dsim h) by (destruct h; reflexivity).
  assert (Hw1 : wb h1 = wb h) by (destruct h; reflexivity).
  destruct (funcs h) as [f|] eqn:Hf.
  - destruct (decon h) as [d|] eqn:Hd.
    + destruct (decon_state_eqb (state d) DECON_STATE_HIBERNATION) eqn:Hs.
      * assert (Hh : state d = DECON_STATE_HIBERNATION)
          by (destruct (state d); try discriminate; reflexivity).
        rewrite (exit_hibernating h1 l d) by congruence.
        eexists _, _. split; [reflexivity|]. cbn [hiber log].
        rewrite Hs1, Hw1.
        assert (Hbc : block_cnt (after_exit h1 d) = atomic_inc (block_cnt h))
          by (destruct h; reflexivity).
        assert (Hdc : decon (after_exit h1 d)
                      = Some (set_state DECON_STATE_ON
                                (set_dev_usage (dev_usage d + 1) d)))
          by (destruct h; reflexivity).
        repeat split; intros; try discriminate; try congruence; auto.
        -- right. exists d. auto.
        -- eexists. split; [exact Hdc|]. reflexivity.
        -- rewrite Hdc in H0. injection H0 as <-. discriminate.
      * assert (Hh : state d <> DECON_STATE_HIBERNATION)
          by (intros E; rewrite E in Hs; discriminate).
        rewrite (exit_not_hibernating h1 l d) by congruence.
        eexists _, _. split; [reflexivity|]. cbn [hiber log].
        assert (Hbc : block_cnt (set_work false (set_trig_cnt (reset_cnt d) h1))
                      = atomic_inc (block_cnt h))
          by (destruct h; reflexivity).
        assert (Hdc : decon (set_work false (set_trig_cnt (reset_cnt d) h1))
                      = Some d)
          by (destruct h; cbn; cbn in Hd; congruence).
        repeat split; intros; try discriminate; try congruence; auto.
        destruct H as [H|(d0 & E & N)]; [discriminate|congruence].
    + rewrite (exit_no_decon (mk_world h1 l)) by (cbn [hiber]; congruence).
      eexists _, _. split; [reflexivity|]. cbn [hiber log].
      repeat split; intros; try discriminate; try congruence; auto.
      destruct H as [H|(d0 & E & N)]; discriminate.
  - eexists _, _. split; [reflexivity|]. cbn [hiber log]. fold h1.
    repeat split; intros; try discriminate; try congruence; auto.
Qed.

(** C2, as the code has it.  On a controller, [hibernation_block_exit]
    returns with the block count incremented by one.  With no operations
    table it does nothing else and answers true.  With a table it calls
    [exit] on the controller it has just blocked: the world it returns is
    the world [exit] returns, and it answers true exactly when [exit]
    returned 0, that is when the pipeline was hibernating and the exit
    sequence has just woken it.  It answers false when the pipeline was not
    hibernating or is absent, and then no subsystem was called; on a
    pipeline that is there and not hibernating the trigger counter is reset
    and the queued work cancelled all the same.  With a table installed the
    pipeline is never left hibernating. *)
Theorem block_exit_result (h : exynos_hibernation) (l : list event) :
  lock h = false -> is_int (block_cnt h) ->
  exists b w',
    hibernation_block_exit HIBER (mk_world h l) = Ok b w' /\
    block_cnt (hiber w') = atomic_inc (block_cnt h) /\
    (block_cnt h < INT_MAX -> block_cnt (hiber w') = block_cnt h + 1) /\
    (b = true <->
     funcs h = None \/
     exists d, decon h = Some d /\ state d = DECON_STATE_HIBERNATION) /\
    (funcs h <> None ->
     forall d, decon h = Some d -> state d = DECON_STATE_HIBERNATION ->
       log w' = l ++ spec_exit_order (dsim h) (wb h) /\
       exists d', decon (hiber w') = Some d' /\ state d' = DECON_STATE_ON) /\
    (funcs h <> None ->
     forall d', decon (hiber w') = Some d' ->
       state d' <> DECON_STATE_HIBERNATION) /\
    (b = false -> log w' = l) /\
    (funcs h = None ->
     w' = mk_world (set_block_cnt (atomic_inc (block_cnt h)) h) l) /\
    (funcs h <> None ->
     exists r,
       exynos_hibernation_exit
         (mk_world (set_block_cnt (atomic_inc (block_cnt h)) h) l)
       = Ok r w' /\
       b = (r =? 0)) /\
    (funcs h <> None ->
     forall d, decon h = Some d -> state d <> DECON_STATE_HIBERNATION ->
       exists v,
         exynos_hibernation_trig_reset (mk_world h l)
         = Ok tt (mk_world (set_trig_cnt v h) l) /\
         w' = mk_world
                (set_work false
                   (set_trig_cnt v
                      (set_block_cnt (atomic_inc (block_cnt h)) h))) l).
Proof.
  intros Hl Hb.
  destruct (block_exit_answer h l Hl Hb)
    as (b & w' & E & H1 & H2 & H3 & H4 & H5 & H6).
  exists b, w'. repeat (split; [assumption|]).
  rewrite block_exit_unfold in E.
  set (h1 := set_block_cnt (atomic_inc (block_cnt h)) h) in *.
  assert (Hl1 : lock h1 = false) by (destruct h; exact Hl).
  assert (Hb1 : is_int (block_cnt h1)) by (destruct h; apply to_int_range).
  split; [|split].
  - intros Hf. rewrite Hf in E. now injection E as _ <-.
  - intros Hf. destruct (funcs h); [|congruence].
    destruct (exynos_hibernation_exit (mk_world h1 l)) as [r w1| |];
      try discriminate.
    injection E as <- <-. exists r. split; reflexivity.
  - intros Hf d Hd Hs. exists (reset_cnt d).
    split; [now apply trig_reset_eq|].
    destruct (funcs h); [|congruence].
    rewrite (exit_not_hibernating h1 l d) in E;
      [| destruct h; exact Hd | exact Hs | exact Hl1 | exact Hb1].
    now injection E as _ <-.
Qed.

Lemma block_exit_result_witness :
  lock demo_hibernating = false /\ is_int (block_cnt demo_hibernating) /\
  exists b w',
    hibernation_block_exit HIBER (mk_world demo_hibernating []) = Ok b w' /\
    block_cnt (hiber w') = atomic_inc (block_cnt demo_hibernating) /\
    (block_cnt demo_hibernating < INT_MAX ->
     block_cnt (hiber w') = block_cnt demo_hibernating + 1) /\
    (b = true <->
     funcs demo_hibernating = None \/
     exists d, decon demo_hibernating = Some d /\
               state d = DECON_STATE_HIBERNATION) /\
    (funcs demo_hibernating <> None ->
     forall d, decon demo_hibernating = Some d ->
       state d = DECON_STATE_HIBERNATION ->
       log w' = [] ++ spec_exit_order (dsim demo_hibernating)
                                      (wb demo_hibernating) /\
       exists d', decon (hiber w') = Some d' /\ state d' = DECON_STATE_ON) /\
    (funcs demo_hibernating <> None ->
     forall d', decon (hiber w') = Some d' ->
       state d' <> DECON_STATE_HIBERNATION) /\
    (b = false -> log w' = []) /\
    (funcs demo_hibernating = None ->
     w' = mk_world
            (set_block_cnt (atomic_inc (block_cnt demo_hibernating))
                           demo_hibernating) []) /\
    (funcs demo_hibernating <> None ->
     exists r,
       exynos_hibernation_exit
         (mk_world
            (set_block_cnt (atomic_inc (block_cnt demo_hibernating))
                           demo_hibernating) [])
       = Ok r w' /\
       b = (r =? 0)) /\
    (funcs demo_hibernating <> None ->
     forall d, decon demo_hibernating = Some d ->
       state d <> DECON_STATE_HIBERNATION ->
       exists v,
         exynos_hibernation_trig_reset (mk_world demo_hibernating [])
         = Ok tt (mk_world (set_trig_cnt v demo_hibernating) []) /\
         w' = mk_world
                (set_work false
                   (set_trig_cnt v
                      (set_block_cnt (atomic_inc (block_cnt demo_hibernating))
                                     demo_hibernating))) []).
Proof.
  split; [reflexivity|]. split; [apply is_int_small; simpl; lia|].
  apply (block_exit_result demo_hibernating []);
    [reflexivity | apply is_int_small; simpl; lia].
Defined.

(** C2 as written fails: on a hibernating pipeline the call answers true,
    and it does so because the exit succeeded; the pipeline is left
    active, not hibernating.  On a pipeline that is already active it
    answers false. *)
Lemma block_exit_true_means_woken :
  hibernation_block_exit HIBER (mk_world demo_hibernating [])
  = Ok true
       (mk_world (set_block_cnt 1 demo_hiber)
                 (spec_exit_order (Some 9%nat) (Some 7%nat))) /\
  decon (set_block_cnt 1 demo_hiber) = Some demo_decon /\
  state demo_decon = DECON_STATE_ON /\
  hibernation_block_exit HIBER (mk_world demo_hiber [])
  = Ok false (mk_world (set_block_cnt 1 demo_hiber) []).
Proof. repeat split. Qed.

(** ** The trigger countdown *)

Lemma tick_step (h : exynos_hibernation) (l : list event) :
  trig_cnt_dec_and_test (mk_world h l)
  = Ok (atomic_dec (trig_cnt h) =? 0)
       (mk_world (set_trig_cnt (atomic_dec (trig_cnt h)) h) l).
Proof. destruct h; reflexivity. Qed.

Lemma set_trig_cnt_twice (a b : Z) (h : exynos_hibernation) :
  set_trig_cnt a (set_trig_cnt b h) = set_trig_cnt a h.
Proof. destruct h; reflexivity. Qed.

Lemma atomic_dec_succ (k : nat) :
  Z.of_nat (S k) <= INT_MAX -> atomic_dec (Z.of_nat (S k)) = Z.of_nat k.
Proof.
  intros Hk. unfold atomic_dec.
  replace (Z.of_nat (S k) - 1) with (Z.of_nat k) by lia.
  apply to_int_id. unfold is_int, INT_MIN, INT_MAX in *. lia.
Qed.

Section Countdown.

(** One step of the countdown, abstractly: [ticks] steps with the bare
    decrement, [checks] with the whole eligibility check. *)
Variable step : M bool.
Variable steps : nat -> M (list bool).
Variable good : exynos_hibernation -> Prop.

Hypothesis steps_O : forall w, steps O w = Ok [] w.
Hypothesis steps_S : forall n w,
    steps (S n) w
    = match step w with
      | Ok b w' =>
          match steps n w' with
          | Ok bs w'' => Ok (b :: bs) w''
          | Blocked => Blocked
          | Fault => Fault
          end
      | Blocked => Blocked
      | Fault => Fault
      end.
Hypothesis step_eq : forall h l,
    good h ->
    step (mk_world h l)
    = Ok (atomic_dec (trig_cnt h) =? 0)
         (mk_world (set_trig_cnt (atomic_dec (trig_cnt h)) h) l).
Hypothesis good_set : forall v h, good h -> good (set_trig_cnt v h).

Lemma countdown (k : nat) :
  forall h l,
    good h -> Z.of_nat (S k) <= INT_MAX -> trig_cnt h = Z.of_nat (S k) ->
    steps (S k) (mk_world h l)
    = Ok (repeat false k ++ [true]) (mk_world (set_trig_cnt 0 h) l).
Proof.
  induction k as [|k IH]; intros h l Hg Hk Ht.
  - rewrite steps_S, step_eq, steps_O, Ht by assumption. reflexivity.
  - rewrite steps_S, step_eq, Ht, atomic_dec_succ by assumption.
    rewrite IH.
    + rewrite set_trig_cnt_twice.
      replace (Z.of_nat (S k) =? 0) with false
        by (symmetry; apply Z.eqb_neq; lia).
      reflexivity.
    + now apply good_set.
    + lia.
    + destruct h; reflexivity.
Qed.

End Countdown.

Lemma ticks_countdown (k : nat) (h : exynos_hibernation) (l : list event) :
  Z.of_nat (S k) <= INT_MAX -> trig_cnt h = Z.of_nat (S k) ->
  ticks (S k) (mk_world h l)
  = Ok (repeat false k ++ [true]) (mk_world (set_trig_cnt 0 h) l).
Proof.
  apply (countdown trig_cnt_dec_and_test ticks (fun _ => True)); auto.
Qed.

Lemma checks_countdown (k : nat) (h : exynos_hibernation) (l : list event) :
  block_cnt h = 0 -> camera_inactive h ->
  Z.of_nat (S k) <= INT_MAX -> trig_cnt h = Z.of_nat (S k) ->
  checks (S k) (mk_world h l)
  = Ok (repeat false k ++ [true]) (mk_world (set_trig_cnt 0 h) l).
Proof.
  intros Hb Hc.
  apply (countdown exynos_hibernation_check checks
           (fun h => block_cnt h = 0 /\ camera_inactive h)); auto.
  intros h0 l0 [H1 H2]. now apply check_ticks.
Qed.

(** ** Reset of the trigger counter *)

Lemma reset_cnt_in_range (fps : Z) :
  INT_MIN <= fps * HIBERNATION_ENTRY_MIN_TIME_MS <= INT_MAX ->
  (let entry_cnt :=
     to_int (DIV_ROUND_UP (to_int (to_int fps * HIBERNATION_ENTRY_MIN_TIME_MS))
                          MSEC_PER_SEC) in
   if entry_cnt <? HIBERNATION_ENTRY_MIN_ENTRY_CNT
   then HIBERNATION_ENTRY_MIN_ENTRY_CNT else entry_cnt)
  = spec_entry_cnt fps.
Proof.
  unfold INT_MIN, INT_MAX, HIBERNATION_ENTRY_MIN_TIME_MS,
    HIBERNATION_ENTRY_MIN_ENTRY_CNT, MSEC_PER_SEC, DIV_ROUND_UP,
    spec_entry_cnt, ceil_div.
  change (2 ^ 31) with 2147483648. intros Hr. cbv zeta.
  rewrite (to_int_id fps)
    by (unfold is_int, INT_MIN, INT_MAX; change (2 ^ 31) with 2147483648; lia).
  rewrite (to_int_id (fps * 50))
    by (unfold is_int, INT_MIN, INT_MAX; change (2 ^ 31) with 2147483648; lia).
  assert (Hl : to_long (fps * 50 + 1000 - 1) = fps * 50 + 999).
  { unfold to_long.
    change (2 ^ 63) with 9223372036854775808.
    change (2 ^ 64) with 18446744073709551616.
    rewrite Z.mod_small by lia. lia. }
  rewrite Hl.
  assert (Hq : -2147483 <= Z.quot (fps * 50 + 999) 1000 <= 2147484)
    by (Z.to_euclidean_division_equations; lia).
  rewrite to_int_id
    by (unfold is_int, INT_MIN, INT_MAX; change (2 ^ 31) with 2147483648; lia).
  destruct (Z.ltb_spec (Z.quot (fps * 50 + 999) 1000) 1);
    Z.to_euclidean_division_equations; lia.
Qed.

Lemma reset_cnt_int (d : decon_device) : is_int (reset_cnt d).
Proof.
  unfold reset_cnt. cbv zeta.
  destruct (_ <? HIBERNATION_ENTRY_MIN_ENTRY_CNT).
  - apply is_int_small. unfold HIBERNATION_ENTRY_MIN_ENTRY_CNT. lia.
  - apply to_int_range.
Qed.

(** C6, as the code has it.  A reset stores a count of at least 1.  As long
    as [fps * 50] fits a 32-bit [int], the count is
    [ceil(fps * 50 / 1000)] clamped to at least 1, where [fps] is the
    pipeline's rate, or 60 when the pipeline reports 0; at 60 Hz it is 3.
    After a reset that stored [n], the first [n - 1] decrement-and-test
    steps answer false and the [n]-th answers true; the same holds of [n]
    eligibility checks in a row when nothing is blocked and the camera is
    inactive. *)
Theorem trig_reset_countdown (h : exynos_hibernation) (l : list event)
  (d : decon_device) :
  decon h = Some d ->
  exists n,
    exynos_hibernation_trig_reset (mk_world h l)
    = Ok tt (mk_world (set_trig_cnt n h) l) /\
    1 <= n /\
    (INT_MIN <= (if bts_fps d =? 0 then 60 else bts_fps d) * 50 <= INT_MAX ->
     n = spec_entry_cnt (if bts_fps d =? 0 then 60 else bts_fps d)) /\
    (bts_fps d = 60 \/ bts_fps d = 0 -> n = 3) /\
    ticks (Z.to_nat n) (mk_world (set_trig_cnt n h) l)
    = Ok (repeat false (Z.to_nat (n - 1)) ++ [true])
         (mk_world (set_trig_cnt 0 h) l) /\
    (block_cnt h = 0 -> camera_inactive h ->
     checks (Z.to_nat n) (mk_world (set_trig_cnt n h) l)
     = Ok (repeat false (Z.to_nat (n - 1)) ++ [true])
          (mk_world (set_trig_cnt 0 h) l)).
Proof.
  intros Hd. exists (reset_cnt d).
  pose proof (reset_cnt_min d) as Hmin.
  pose proof (reset_cnt_int d) as Hint.
  unfold HIBERNATION_ENTRY_MIN_ENTRY_CNT in Hmin.
  assert (Hn : Z.to_nat (reset_cnt d) = S (Z.to_nat (reset_cnt d - 1))) by lia.
  assert (Hk : Z.of_nat (S (Z.to_nat (reset_cnt d - 1))) <= INT_MAX)
    by (unfold is_int in Hint; lia).
  assert (Ht : trig_cnt (set_trig_cnt (reset_cnt d) h)
               = Z.of_nat (S (Z.to_nat (reset_cnt d - 1))))
    by (destruct h; cbn [trig_cnt set_trig_cnt]; lia).
  split; [now apply trig_reset_eq|]. split; [exact Hmin|]. split; [|split; [|split]].
  - intros Hr. unfold reset_cnt. apply (reset_cnt_in_range _ Hr).
  - intros [E|E]; destruct d as [s f aw ad u]; cbn [bts_fps] in E; subst f;
      reflexivity.
  - rewrite Hn, (ticks_countdown _ _ _ Hk Ht), set_trig_cnt_twice. reflexivity.
  - intros Hb Hc. rewrite Hn, (checks_countdown _ _ _) by assumption.
    rewrite set_trig_cnt_twice. reflexivity.
Qed.

Lemma trig_reset_countdown_witness :
  decon demo_hiber = Some demo_decon /\
  exists n,
    exynos_hibernation_trig_reset (mk_world demo_hiber [])
    = Ok tt (mk_world (set_trig_cnt n demo_hiber) []) /\
    1 <= n /\
    (INT_MIN <= (if bts_fps demo_decon =? 0 then 60 else bts_fps demo_decon) * 50
             <= INT_MAX ->
     n = spec_entry_cnt
           (if bts_fps demo_decon =? 0 then 60 else bts_fps demo_decon)) /\
    (bts_fps demo_decon = 60 \/ bts_fps demo_decon = 0 -> n = 3) /\
    ticks (Z.to_nat n) (mk_world (set_trig_cnt n demo_hiber) [])
    = Ok (repeat false (Z.to_nat (n - 1)) ++ [true])
         (mk_world (set_trig_cnt 0 demo_hiber) []) /\
    (block_cnt demo_hiber = 0 -> camera_inactive demo_hiber ->
     checks (Z.to_nat n) (mk_world (set_trig_cnt n demo_hiber) [])
     = Ok (repeat false (Z.to_nat (n - 1)) ++ [true])
          (mk_world (set_trig_cnt 0 demo_hiber) [])).
Proof.
  split; [reflexivity|].
  apply (trig_reset_countdown demo_hiber [] demo_decon). reflexivity.
Defined.

(** C6 as written fails for rates past 42949672: the product [fps * 50] is
    computed in [int] and wraps around, and the reset stores 1 where the
    formula gives 2147484. *)
Lemma trig_reset_wraps_around :
  exynos_hibernation_trig_reset (mk_world demo_overflow [])
  = Ok tt (mk_world (set_trig_cnt 1 demo_overflow) []) /\
  spec_entry_cnt 42949673 = 2147484 /\
  42949673 * HIBERNATION_ENTRY_MIN_TIME_MS > INT_MAX.
Proof. repeat split. Qed.

(** ** Effects of the calls *)

Ltac core_simpl :=
  cbv beta iota delta
    [same_core ready after_enter after_exit
     set_state set_dev_usage set_trig_cnt set_block_cnt set_lock set_decon
     set_dsim set_wb set_work set_cam_op_reg set_funcs
     hiber log trig_cnt block_cnt cam_op_reg lock decon dsim wb funcs work
     state bts_fps attached_wb attached_dsim dev_usage] in *.

Lemma same_core_refl (h : exynos_hibernation) :
  is_int (block_cnt h) -> same_core h h.
Proof. unfold same_core. tauto. Qed.

Lemma effect_ready (w w' : world) : ready w -> effect w w' -> ready w'.
Proof.
  destruct w as [h l], w' as [h' l']. destruct h, h'.
  intros (Hl & Hf & Hb) [H _|d _ _ H _|d _ _ H _]; core_simpl;
    destruct H as (_ & -> & _ & _ & _ & -> & Hb'); auto.
Qed.

Lemma effect_after_keep (w w1 w2 : world) :
  same_core (hiber w) (hiber w1) -> log w1 = log w ->
  effect w1 w2 -> effect w w2.
Proof.
  destruct w as [h l], w1 as [h1 l1], w2 as [h2 l2].
  destruct h, h1, h2; core_simpl.
  intros (-> & -> & -> & -> & -> & -> & _) -> [H E|d Hd Hs H E|d Hd Hs H E];
    core_simpl.
  - apply Eff_keep; core_simpl; tauto.
  - apply (Eff_enter _ _ d); core_simpl; tauto.
  - apply (Eff_exit _ _ d); core_simpl; tauto.
Qed.

Lemma effect_check (w : world) :
  ready w ->
  exists b w',
    exynos_hibernation_check w = Ok b w' /\
    same_core (hiber w) (hiber w') /\ log w' = log w.
Proof.
  destruct w as [h l]. intros (Hl & Hf & Hb). cbn [hiber] in *.
  destruct (Z.eq_dec (block_cnt h) 0) as [Hz|Hz].
  - destruct (camera_inactive_dec h) as [Hc|Hc].
    + eexists _, _. split; [apply (check_ticks h l Hz Hc)|].
      split; [|reflexivity]. destruct h; core_simpl; tauto.
    + eexists _, _. split; [apply (check_camera h l Hz Hc)|].
      split; [now apply same_core_refl|reflexivity].
  - eexists _, _. split; [apply (check_blocked h l Hz)|].
    split; [now apply same_core_refl|reflexivity].
Qed.

Lemma effect_enter (w : world) :
  ready w ->
  exists w', exynos_hibernation_enter w = Ok tt w' /\ effect w w'.
Proof.
  destruct w as [h l]. intros (Hl & Hf & Hb). cbn [hiber] in *.
  destruct (decon h) as [d|] eqn:Hd.
  - destruct (decon_state_eqb (state d) DECON_STATE_ON) eqn:Hs.
    + assert (Ho : state d = DECON_STATE_ON)
        by (destruct (state d); try discriminate; reflexivity).
      eexists. split; [now apply (enter_on h l d)|].
      apply (Eff_enter _ _ d); auto. cbn [hiber].
      apply same_core_refl. destruct h; exact Hb.
    + assert (Ho : state d <> DECON_STATE_ON)
        by (intros E; rewrite E in Hs; discriminate).
      eexists. split; [now apply (enter_not_on h l d)|].
      apply Eff_keep; auto. now apply same_core_refl.
  - eexists. split; [now apply enter_no_decon|].
    apply Eff_keep; auto. now apply same_core_refl.
Qed.

Lemma effect_exit (w : world) :
  ready w ->
  exists r w', exynos_hibernation_exit w = Ok r w' /\ effect w w'.
Proof.
  destruct w as [h l]. intros (Hl & Hf & Hb). cbn [hiber] in *.
  destruct (decon h) as [d|] eqn:Hd.
  - destruct (decon_state_eqb (state d) DECON_STATE_HIBERNATION) eqn:Hs.
    + assert (Ho : state d = DECON_STATE_HIBERNATION)
        by (destruct (state d); try discriminate; reflexivity).
      eexists _, _. split; [now apply (exit_hibernating h l d)|].
      apply (Eff_exit _ _ d); auto. cbn [hiber].
      apply same_core_refl. destruct h; exact Hb.
    + assert (Ho : state d <> DECON_STATE_HIBERNATION)
        by (intros E; rewrite E in Hs; discriminate).
      eexists _, _. split; [now apply (exit_not_hibernating h l d)|].
      apply Eff_keep; auto. cbn [hiber].
      destruct h; core_simpl; tauto.
  - eexists _, _. split; [now apply exit_no_decon|].
    apply Eff_keep; auto. now apply same_core_refl.
Qed.

Lemma effect_block (w : world) :
  ready w -> exists w', hibernation_block w = Ok tt w' /\ effect w w'.
Proof.
  destruct w as [h l]. intros _. eexists. split; [reflexivity|].
  apply Eff_keep; [|reflexivity].
  destruct h; core_simpl. repeat (split; [reflexivity|]). apply to_int_range.
Qed.

Lemma effect_unblock (w : world) :
  ready w -> exists w', hibernation_unblock w = Ok tt w' /\ effect w w'.
Proof.
  destruct w as [h l]. intros _. eexists. split; [reflexivity|].
  apply Eff_keep; [|reflexivity].
  destruct h; core_simpl. repeat (split; [reflexivity|]). apply to_int_range.
Qed.

Lemma handler_unfold (w : world) :
  exynos_hibernation_handler w
  = match funcs (hiber w) with
    | None => Fault
    | Some _ =>
        match exynos_hibernation_check w with
        | Ok b w1 => if b then exynos_hibernation_enter w1 else Ok tt w1
        | Blocked => Blocked
        | Fault => Fault
        end
    end.
Proof.
  unfold exynos_hibernation_handler, bind, get_hiber, funcs_check, funcs_enter,
    fault, ret.
  destruct (funcs (hiber w)) as [[]|]; [|reflexivity].
  destruct (exynos_hibernation_check w) as [[] w1| |]; reflexivity.
Qed.

Lemma effect_handler (w : world) :
  ready w -> exists w', exynos_hibernation_handler w = Ok tt w' /\ effect w w'.
Proof.
  intros Hr. rewrite handler_unfold.
  destruct (effect_check w Hr) as (b & w1 & E & Hc & Hlog). rewrite E.
  assert (Hr1 : ready w1)
    by (apply (effect_ready w); [exact Hr | now apply Eff_keep]).
  destruct Hr as (_ & Hf & _). destruct (funcs (hiber w)); [|congruence].
  destruct b.
  - destruct (effect_enter w1 Hr1) as (w2 & E2 & H2).
    exists w2. split; [exact E2|]. now apply (effect_after_keep w w1 w2).
  - exists w1. split; [reflexivity|]. now apply Eff_keep.
Qed.

Lemma effect_block_exit (w : world) :
  ready w ->
  exists b w', hibernation_block_exit HIBER w = Ok b w' /\ effect w w'.
Proof.
  destruct w as [h l]. intros Hr. rewrite block_exit_unfold.
  destruct (effect_block (mk_world h l) Hr) as (w1 & E1 & H1).
  injection E1 as <-.
  assert (Hr1 : ready
                  (mk_world (set_block_cnt (atomic_inc (block_cnt h)) h) l))
    by (apply (effect_ready (mk_world h l)); assumption).
  destruct Hr as (_ & Hf & _). cbn [hiber] in Hf.
  destruct (funcs h); [|congruence].
  destruct (effect_exit _ Hr1) as (r & w2 & E2 & H2). rewrite E2.
  eexists _, w2. split; [reflexivity|].
  apply (effect_after_keep
           (mk_world h l)
           (mk_world (set_block_cnt (atomic_inc (block_cnt h)) h) l) w2);
    auto.
  destruct h; core_simpl. repeat (split; [reflexivity|]). apply to_int_range.
Qed.

Lemma run_op_effect (o : op) (w : world) :
  ready w -> exists w', run_op o w = Ok tt w' /\ effect w w'.
Proof.
  intros Hr. destruct o; cbn [run_op].
  - now apply effect_block.
  - now apply effect_unblock.
  - destruct (effect_check w Hr) as (b & w' & E & Hc & Hl).
    exists w'. unfold bind. rewrite E. split; [reflexivity|now apply Eff_keep].
  - now apply effect_enter.
  - destruct (effect_exit w Hr) as (r & w' & E & H).
    exists w'. unfold bind. rewrite E. split; [reflexivity|exact H].
  - destruct (effect_block_exit w Hr) as (b & w' & E & H).
    exists w'. unfold bind. rewrite E. split; [reflexivity|exact H].
  - now apply effect_handler.
Qed.

Section RunInvariant.

(** A property of worlds that every effect preserves holds after every
    sequence of calls, and every such sequence returns. *)
Variable I : world -> Prop.
Hypothesis I_effect : forall w w', ready w -> I w -> effect w w' -> I w'.

Lemma run_invariant (os : list op) :
  forall w, ready w -> I w ->
    exists w', run os w = Ok tt w' /\ ready w' /\ I w'.
Proof.
  induction os as [|o os IH]; intros w Hr Hi.
  - exists w. split; [reflexivity | split; assumption].
  - destruct (run_op_effect o w Hr) as (w1 & E1 & H1).
    destruct (IH w1) as (w2 & E2 & Hr2 & Hi2).
    + now apply (effect_ready w).
    + now apply (I_effect w).
    + exists w2. cbn [run]. unfold bind. rewrite E1.
      split; [exact E2 | split; assumption].
Qed.

End RunInvariant.

(** ** The power-domain reference along sequences of calls *)

Lemma pm_discipline_app (l1 l2 : list event) :
  forall held,
    pm_discipline held (l1 ++ l2)
    = match pm_discipline held l1 with
      | Some held' => pm_discipline held' l2
      | None => None
      end.
Proof.
  induction l1 as [|e l1 IH]; intros held; [reflexivity|].
  destruct e, held; cbn [pm_discipline app]; auto.
Qed.

Lemma pm_enter_order (d : decon_device) :
  pm_discipline true (spec_enter_order d) = Some false.
Proof.
  unfold spec_enter_order.
  destruct (attached_wb d), (attached_dsim d); reflexivity.
Qed.

Lemma pm_exit_order (l : option dsim_device) (w : option writeback_device) :
  pm_discipline false (spec_exit_order l w) = Some true.
Proof. destruct l, w; reflexivity. Qed.

Lemma pm_inv_effect (u0 : Z) (w w' : world) :
  ready w -> pm_inv u0 w -> effect w w' -> pm_inv u0 w'.
Proof.
  intros _ (d0 & Hd0 & Hp & Hu) [Hc Hl|d Hd Hs Hc Hl|d Hd Hs Hc Hl].
  - exists d0. destruct Hc as (_ & _ & -> & _). rewrite Hl. auto.
  - assert (d0 = d) by congruence. subst d0.
    unfold hibernating in Hp, Hu. rewrite Hs in Hp, Hu. cbn in Hp, Hu.
    destruct Hc as (_ & _ & Hc & _).
    eexists. split; [rewrite Hc; destruct (hiber w); reflexivity|].
    rewrite Hl, pm_discipline_app, Hp, pm_enter_order.
    split; [reflexivity|]. destruct d; cbn in *. lia.
  - assert (d0 = d) by congruence. subst d0.
    unfold hibernating in Hp, Hu. rewrite Hs in Hp, Hu. cbn in Hp, Hu.
    destruct Hc as (_ & _ & Hc & _).
    eexists. split; [rewrite Hc; destruct (hiber w); reflexivity|].
    rewrite Hl, pm_discipline_app, Hp, pm_exit_order.
    split; [reflexivity|]. destruct d; cbn in *. lia.
Qed.

(** C3.  On an ACTIVE pipeline [enter] calls, in this order: the writeback
    (if one is attached), the pipeline, the link's ULPS entry (if a link is
    attached), the bandwidth release and one runtime-PM put; the pipeline
    then reads HIBERNATING with one reference less.  The paired [exit]
    returns 0 after one runtime-PM get, the link's ULPS exit, the pipeline
    and the writeback, in this order, and the pipeline reads ACTIVE with the
    reference count it had at first.  Along every sequence of calls from an
    ACTIVE controller, puts and gets of the power-domain reference
    alternate, starting with a put: it is never released twice, nor
    acquired twice, in a row. *)
Theorem enter_exit_order (h : exynos_hibernation) (l : list event)
  (d : decon_device) :
  decon h = Some d -> state d = DECON_STATE_ON ->
  lock h = false -> is_int (block_cnt h) ->
  (exists w1 d1,
      exynos_hibernation_enter (mk_world h l) = Ok tt w1 /\
      log w1 = l ++ spec_enter_order d /\
      decon (hiber w1) = Some d1 /\
      state d1 = DECON_STATE_HIBERNATION /\
      dev_usage d1 = dev_usage d - 1 /\
      exists w2 d2,
        exynos_hibernation_exit w1 = Ok 0 w2 /\
        log w2 = log w1 ++ spec_exit_order (attached_dsim d) (attached_wb d) /\
        decon (hiber w2) = Some d2 /\
        state d2 = DECON_STATE_ON /\
        dev_usage d2 = dev_usage d) /\
  (funcs h <> None ->
   forall os, exists w' d',
     run os (mk_world h []) = Ok tt w' /\
     decon (hiber w') = Some d' /\
     pm_discipline true (log w') = Some (negb (hibernating d')) /\
     dev_usage d' = (if hibernating d' then dev_usage d - 1 else dev_usage d)).
Proof.
  intros Hd Hs Hl Hb. split.
  - set (d1 := set_dev_usage (dev_usage d - 1)
                 (set_state DECON_STATE_HIBERNATION d)).
    assert (E1 : decon (after_enter h d) = Some d1) by (destruct h; reflexivity).
    assert (L1 : lock (after_enter h d) = false) by (destruct h; exact Hl).
    assert (B1 : is_int (block_cnt (after_enter h d))) by (destruct h; exact Hb).
    assert (S1 : state d1 = DECON_STATE_HIBERNATION) by reflexivity.
    exists (mk_world (after_enter h d) (l ++ spec_enter_order d)), d1.
    split; [now apply enter_on|]. cbn [log hiber].
    repeat (split; [first [reflexivity | assumption]|]).
    exists (mk_world (after_exit (after_enter h d) d1)
              ((l ++ spec_enter_order d)
               ++ spec_exit_order (attached_dsim d) (attached_wb d))),
      (set_state DECON_STATE_ON (set_dev_usage (dev_usage d1 + 1) d1)).
    split.
    + rewrite (exit_hibernating (after_enter h d) _ d1 E1 S1 L1 B1).
      destruct h; reflexivity.
    + cbn [log hiber]. split; [reflexivity|].
      split; [destruct h; reflexivity|]. split; [reflexivity|].
      destruct d; cbn. lia.
  - intros Hf os.
    destruct (run_invariant (pm_inv (dev_usage d)) (pm_inv_effect (dev_usage d))
                os (mk_world h []))
      as (w' & E & _ & d' & Hd' & Hp & Hu).
    + unfold ready; cbn [hiber]; auto.
    + exists d. unfold hibernating. rewrite Hs. cbn [hiber log]. auto.
    + exists w', d'. auto.
Qed.

Lemma enter_exit_order_witness :
  decon demo_hiber = Some demo_decon /\ state demo_decon = DECON_STATE_ON /\
  lock demo_hiber = false /\ is_int (block_cnt demo_hiber) /\
  (exists w1 d1,
      exynos_hibernation_enter (mk_world demo_hiber []) = Ok tt w1 /\
      log w1 = [] ++ spec_enter_order demo_decon /\
      decon (hiber w1) = Some d1 /\
      state d1 = DECON_STATE_HIBERNATION /\
      dev_usage d1 = dev_usage demo_decon - 1 /\
      exists w2 d2,
        exynos_hibernation_exit w1 = Ok 0 w2 /\
        log w2 = log w1 ++ spec_exit_order (attached_dsim demo_decon)
                                           (attached_wb demo_decon) /\
        decon (hiber w2) = Some d2 /\
        state d2 = DECON_STATE_ON /\
        dev_usage d2 = dev_usage demo_decon) /\
  (funcs demo_hiber <> None ->
   forall os, exists w' d',
     run os (mk_world demo_hiber []) = Ok tt w' /\
     decon (hiber w') = Some d' /\
     pm_discipline true (log w') = Some (negb (hibernating d')) /\
     dev_usage d' = (if hibernating d' then dev_usage demo_decon - 1
                     else dev_usage demo_decon)).
Proof.
  split; [reflexivity|]. split; [reflexivity|]. split; [reflexivity|].
  split; [apply is_int_small; simpl; lia|].
  apply (enter_exit_order demo_hiber [] demo_decon);
    [reflexivity | reflexivity | reflexivity | apply is_int_small; simpl; lia].
Defined.

(** ** The captured handles *)

Lemma handles_inv_effect (w w' : world) :
  ready w -> handles_inv w -> effect w w' -> handles_inv w'.
Proof.
  intros _ Hi [Hc Hl|d Hd Hs Hc Hl|d Hd Hs Hc Hl] d' Hd' Hs'.
  - destruct Hc as (_ & _ & Ed & -> & -> & _). apply (Hi d'); congruence.
  - destruct Hc as (_ & _ & Ed & _). rewrite Ed in Hd'.
    destruct (hiber w); cbn in Hd'. injection Hd' as <-.
    exfalso. apply Hs'. reflexivity.
  - destruct Hc as (_ & _ & _ & -> & -> & _).
    destruct (hiber w); split; reflexivity.
Qed.

(** Registration hands out a controller that is ready, holds no handle and
    no veto, and has a freshly reset countdown. *)
Lemma register_establishes (d : decon_device) (np : device_node)
  (alloc_ok : bool) (h : exynos_hibernation) :
  exynos_hibernation_register d np alloc_ok = Some h ->
  ready (mk_world h []) /\ handles_inv (mk_world h []) /\
  decon h = Some d /\ block_cnt h = 0 /\ trig_cnt h = reset_cnt d.
Proof.
  unfold exynos_hibernation_register.
  destruct (of_hibernation np); [|discriminate].
  destruct alloc_ok; [|discriminate]. cbn [negb].
  destruct (of_camera_operation np) as [[v|]|]; try discriminate.
  all: cbv zeta; rewrite (trig_reset_eq _ _ d) by reflexivity.
  all: intros E; injection E as <-.
  all: unfold ready, handles_inv; cbn.
  all: repeat split; try discriminate; try reflexivity.
Qed.

(** C8.  The link and writeback handles are captured by the enter sequence
    and cleared by the exit sequence: after [enter] on an ACTIVE pipeline
    they hold what is attached and the pipeline is HIBERNATING; [exit] on a
    HIBERNATING pipeline re-enables each captured subsystem and leaves both
    handles empty, the pipeline ACTIVE.  So along every sequence of calls
    from a controller that holds no handle while not hibernating, no handle
    is ever held while the pipeline is not hibernating. *)
Theorem handles_only_while_hibernating (h : exynos_hibernation)
  (l : list event) :
  lock h = false -> is_int (block_cnt h) ->
  (forall d, decon h = Some d -> state d = DECON_STATE_ON ->
     exists w1 d1,
       exynos_hibernation_enter (mk_world h l) = Ok tt w1 /\
       decon (hiber w1) = Some d1 /\ state d1 = DECON_STATE_HIBERNATION /\
       dsim (hiber w1) = attached_dsim d /\ wb (hiber w1) = attached_wb d) /\
  (forall d, decon h = Some d -> state d = DECON_STATE_HIBERNATION ->
     exists w1 d1,
       exynos_hibernation_exit (mk_world h l) = Ok 0 w1 /\
       log w1 = l ++ spec_exit_order (dsim h) (wb h) /\
       decon (hiber w1) = Some d1 /\ state d1 = DECON_STATE_ON /\
       dsim (hiber w1) = None /\ wb (hiber w1) = None) /\
  (funcs h <> None -> handles_inv (mk_world h l) ->
   forall os, exists w',
     run os (mk_world h l) = Ok tt w' /\ handles_inv w').
Proof.
  intros Hl Hb. split; [|split].
  - intros d Hd Hs. eexists _, _.
    split; [now apply (enter_on h l d)|].
    destruct h; repeat split; reflexivity.
  - intros d Hd Hs. eexists _, _.
    split; [now apply (exit_hibernating h l d)|].
    destruct h; repeat split; reflexivity.
  - intros Hf Hi os.
    destruct (run_invariant handles_inv handles_inv_effect os (mk_world h l))
      as (w' & E & _ & Hi'); auto.
    + unfold ready; cbn [hiber]; auto.
    + exists w'. auto.
Qed.

Lemma handles_only_while_hibernating_witness :
  lock demo_hiber = false /\ is_int (block_cnt demo_hiber) /\
  (forall d, decon demo_hiber = Some d -> state d = DECON_STATE_ON ->
     exists w1 d1,
       exynos_hibernation_enter (mk_world demo_hiber []) = Ok tt w1 /\
       decon (hiber w1) = Some d1 /\ state d1 = DECON_STATE_HIBERNATION /\
       dsim (hiber w1) = attached_dsim d /\ wb (hiber w1) = attached_wb d) /\
  (forall d, decon demo_hiber = Some d -> state d = DECON_STATE_HIBERNATION ->
     exists w1 d1,
       exynos_hibernation_exit (mk_world demo_hiber []) = Ok 0 w1 /\
       log w1 = [] ++ spec_exit_order (dsim demo_hiber) (wb demo_hiber) /\
       decon (hiber w1) = Some d1 /\ state d1 = DECON_STATE_ON /\
       dsim (hiber w1) = None /\ wb (hiber w1) = None) /\
  (funcs demo_hiber <> None -> handles_inv (mk_world demo_hiber []) ->
   forall os, exists w',
     run os (mk_world demo_hiber []) = Ok tt w' /\ handles_inv w').
Proof.
  split; [reflexivity|]. split; [apply is_int_small; simpl; lia|].
  apply (handles_only_while_hibernating demo_hiber []);
    [reflexivity | apply is_int_small; simpl; lia].
Defined.

(** ** The camera register *)

(** X1.  Reading the camera status changes nothing, and only the low four
    bits of the register count: the camera is reported operating exactly
    when a register is mapped and its value is not a multiple of 16. *)
Theorem camera_low_nibble (w : world) :
  exists b,
    is_camera_operating w = Ok b w /\
    (b = true <->
     exists v, cam_op_reg (hiber w) = Some v /\ v mod 16 <> 0).
Proof.
  destruct w as [h l]. destruct h as [tc bc cam lk dc ds wh f wk].
  destruct cam as [v|].
  - exists (negb (Z.land v CAMERA_OPERATION_MASK =? 0)).
    split; [reflexivity|]. cbn [hiber cam_op_reg].
    assert (E : Z.land v CAMERA_OPERATION_MASK = v mod 16)
      by (change CAMERA_OPERATION_MASK with (Z.ones 4);
          rewrite Z.land_ones by lia; reflexivity).
    rewrite E. split.
    + intros Hb. exists v. split; [reflexivity|].
      intros H0. rewrite H0 in Hb. discriminate.
    + intros (v' & Ev & Hv). injection Ev as <-.
      apply Z.eqb_neq in Hv. rewrite Hv. reflexivity.
  - exists false. split; [reflexivity|]. split; [discriminate|].
    intros (v' & Ev & _). discriminate.
Qed.

(** ** NULL pointers *)

Ltac crunch :=
  repeat (run_code; cbv beta iota delta [is_fault];
          match goal with
          | |- context [match ?x with _ => _ end] => is_var x; destruct x
          | |- context [match (?a =? ?b) with _ => _ end] =>
              destruct (a =? b)
          end);
  run_code; cbv beta iota delta [is_fault].

(** X2.  The check, [enter], [exit] and [hibernation_block_exit] never
    dereference a NULL pointer, whatever the controller holds: [enter] and
    [exit] test [hiber->decon] before anything reads it, and
    [hibernation_block_exit] tests [hiber] and [hiber->funcs].  The work
    handler does not test [hiber->funcs]: it faults exactly when no
    operations table is installed. *)
Theorem guarded_calls_never_fault (w : world) :
  is_fault (exynos_hibernation_check w) = false /\
  is_fault (exynos_hibernation_enter w) = false /\
  is_fault (exynos_hibernation_exit w) = false /\
  (forall p, is_fault (hibernation_block_exit p w) = false) /\
  (is_fault (exynos_hibernation_handler w) = true <->
   funcs (hiber w) = None).
Proof.
  destruct w as [h l]. destruct h as [tc bc cam lk dc ds wh f wk].
  split; [|split; [|split; [|split]]].
  - crunch; reflexivity.
  - destruct dc as [[s fp aw ad u]|]; crunch; reflexivity.
  - destruct dc as [[s fp aw ad u]|]; crunch; reflexivity.
  - intros p. destruct dc as [[s fp aw ad u]|]; crunch; reflexivity.
  - destruct dc as [[s fp aw ad u]|]; destruct f as [[]|];
      cbn [hiber funcs]; crunch; split; congruence.
Qed.

(** ** Registration *)

(** X3.  Registration hands out no controller in exactly three cases: the
    device node has no "hibernation" property, the allocation fails, or
    there is a "camera-operation" child node whose register cannot be
    mapped.  A node without that child is not an error. *)
Theorem register_none_iff (d : decon_device) (np : device_node)
  (alloc_ok : bool) :
  exynos_hibernation_register d np alloc_ok = None <->
  of_hibernation np = false \/ alloc_ok = false \/
  of_camera_operation np = Some None.
Proof.
  unfold exynos_hibernation_register.
  destruct (of_hibernation np); cbn [negb]; [|tauto].
  destruct alloc_ok; cbn [negb]; [|tauto].
  destruct (of_camera_operation np) as [[v|]|]; cbv zeta.
  - rewrite (trig_reset_eq _ _ d) by reflexivity.
    split; [discriminate|]. intros [H|[H|H]]; discriminate.
  - tauto.
  - rewrite (trig_reset_eq _ _ d) by reflexivity.
    split; [discriminate|]. intros [H|[H|H]]; discriminate.
Qed.

(** X4.  A controller that registration hands out is bound to the pipeline
    and to [hibernation_funcs], has its mutex free, no veto, no captured
    handle and no work queued, and carries the camera register exactly when
    the node had one that mapped.  Its countdown is freshly reset, so that
    an [exit] on it, the pipeline not hibernating, answers [-EBUSY] and
    leaves it exactly as registration built it. *)
Theorem register_fresh (d : decon_device) (np : device_node)
  (alloc_ok : bool) (h : exynos_hibernation) (l : list event) :
  exynos_hibernation_register d np alloc_ok = Some h ->
  decon h = Some d /\ funcs h = Some hibernation_funcs /\
  lock h = false /\ block_cnt h = 0 /\
  dsim h = None /\ wb h = None /\ work h = false /\
  (forall v, cam_op_reg h = Some v <-> of_camera_operation np = Some (Some v)) /\
  1 <= trig_cnt h /\
  (state d <> DECON_STATE_HIBERNATION ->
   exynos_hibernation_exit (mk_world h l) = Ok (- EBUSY) (mk_world h l)).
Proof.
  unfold exynos_hibernation_register.
  destruct (of_hibernation np); [|discriminate].
  destruct alloc_ok; [|discriminate]. cbn [negb].
  pose proof (reset_cnt_min d) as Hmin.
  unfold HIBERNATION_ENTRY_MIN_ENTRY_CNT in Hmin.
  destruct (of_camera_operation np) as [[v|]|]; try discriminate.
  all: cbv zeta; rewrite (trig_reset_eq _ _ d) by reflexivity.
  all: intros E; injection E as <-.
  all: unfold kzalloc_hiber; core_simpl.
  all: repeat (split; [reflexivity|]).
  all: split; [intros v'; split; congruence|].
  all: split; [exact Hmin|].
  all: intros Hs;
    match goal with
    | |- exynos_hibernation_exit (mk_world ?h0 _) = _ =>
        rewrite (exit_not_hibernating h0 l d eq_refl Hs eq_refl)
          by (apply is_int_small; cbn [block_cnt]; lia)
    end;
    core_simpl; reflexivity.
Qed.

Lemma register_fresh_witness :
  exynos_hibernation_register demo_decon demo_node true
  = Some (set_cam_op_reg (Some 0) demo_hiber) /\
  decon (set_cam_op_reg (Some 0) demo_hiber) = Some demo_decon /\
  funcs (set_cam_op_reg (Some 0) demo_hiber) = Some hibernation_funcs /\
  lock (set_cam_op_reg (Some 0) demo_hiber) = false /\
  block_cnt (set_cam_op_reg (Some 0) demo_hiber) = 0 /\
  dsim (set_cam_op_reg (Some 0) demo_hiber) = None /\
  wb (set_cam_op_reg (Some 0) demo_hiber) = None /\
  work (set_cam_op_reg (Some 0) demo_hiber) = false /\
  (forall v, cam_op_reg (set_cam_op_reg (Some 0) demo_hiber) = Some v <->
             of_camera_operation demo_node = Some (Some v)) /\
  1 <= trig_cnt (set_cam_op_reg (Some 0) demo_hiber) /\
  (state demo_decon <> DECON_STATE_HIBERNATION ->
   exynos_hibernation_exit (mk_world (set_cam_op_reg (Some 0) demo_hiber) [])
   = Ok (- EBUSY) (mk_world (set_cam_op_reg (Some 0) demo_hiber) [])).
Proof.
  split; [reflexivity|].
  apply (register_fresh demo_decon demo_node true _ []). reflexivity.
Defined.

(** ** Repeating and pairing the transitions *)

(** X5.  A second [exit] right after an [exit] is harmless: it answers
    [-EBUSY], calls no subsystem and leaves the world the first one
    produced, countdown included. *)
Theorem exit_twice (h : exynos_hibernation) (l : list event)
  (d : decon_device) :
  decon h = Some d -> lock h = false -> is_int (block_cnt h) ->
  exists r w1,
    exynos_hibernation_exit (mk_world h l) = Ok r w1 /\
    exynos_hibernation_exit w1 = Ok (- EBUSY) w1.
Proof.
  intros Hd Hl Hb.
  destruct (decon_state_eqb (state d) DECON_STATE_HIBERNATION) eqn:Hs.
  - assert (Hh : state d = DECON_STATE_HIBERNATION)
      by (destruct (state d); try discriminate; reflexivity).
    eexists _, _. split; [now apply (exit_hibernating h l d)|].
    rewrite (exit_not_hibernating
               (after_exit h d) _
               (set_state DECON_STATE_ON (set_dev_usage (dev_usage d + 1) d))).
    + destruct h, d. core_simpl. unfold reset_cnt. core_simpl. reflexivity.
    + destruct h; reflexivity.
    + discriminate.
    + destruct h; exact Hl.
    + destruct h; exact Hb.
  - assert (Hh : state d <> DECON_STATE_HIBERNATION)
      by (intros E; rewrite E in Hs; discriminate).
    eexists _, _. split; [now apply (exit_not_hibernating h l d)|].
    rewrite (exit_not_hibernating
               (set_work false (set_trig_cnt (reset_cnt d) h)) _ d).
    + destruct h; core_simpl; reflexivity.
    + destruct h; exact Hd.
    + exact Hh.
    + destruct h; exact Hl.
    + destruct h; exact Hb.
Qed.

Lemma exit_twice_witness :
  decon demo_hibernating
  = Some (mk_decon DECON_STATE_HIBERNATION 60 (Some 7%nat) (Some 9%nat) 0) /\
  lock demo_hibernating = false /\ is_int (block_cnt demo_hibernating) /\
  exists r w1,
    exynos_hibernation_exit (mk_world demo_hibernating []) = Ok r w1 /\
    exynos_hibernation_exit w1 = Ok (- EBUSY) w1.
Proof.
  split; [reflexivity|]. split; [reflexivity|].
  split; [apply is_int_small; simpl; lia|].
  apply (exit_twice demo_hibernating [] _ eq_refl);
    [reflexivity | apply is_int_small; simpl; lia].
Defined.

(** X6.  A second [enter] right after an [enter] does nothing: whatever the
    pipeline's state, the world the first call returns is a fixed point of
    [enter], so the enter sequence cannot run twice in a row. *)
Theorem enter_twice (h : exynos_hibernation) (l : list event) :
  lock h = false -> is_int (block_cnt h) ->
  exists w1,
    exynos_hibernation_enter (mk_world h l) = Ok tt w1 /\
    exynos_hibernation_enter w1 = Ok tt w1.
Proof.
  intros Hl Hb. destruct (decon h) as [d|] eqn:Hd.
  - destruct (decon_state_eqb (state d) DECON_STATE_ON) eqn:Hs.
    + assert (Ho : state d = DECON_STATE_ON)
        by (destruct (state d); try discriminate; reflexivity).
      eexists. split; [now apply (enter_on h l d)|].
      apply (enter_not_on
               (after_enter h d) _
               (set_dev_usage (dev_usage d - 1)
                  (set_state DECON_STATE_HIBERNATION d))).
      * destruct h; reflexivity.
      * discriminate.
      * destruct h; exact Hl.
      * destruct h; exact Hb.
    + assert (Ho : state d <> DECON_STATE_ON)
        by (intros E; rewrite E in Hs; discriminate).
      eexists. split; now apply (enter_not_on h l d).
  - eexists. split; now apply enter_no_decon.
Qed.

Lemma enter_twice_witness :
  lock demo_hiber = false /\ is_int (block_cnt demo_hiber) /\
  exists w1,
    exynos_hibernation_enter (mk_world demo_hiber []) = Ok tt w1 /\
    exynos_hibernation_enter w1 = Ok tt w1.
Proof.
  split; [reflexivity|]. split; [apply is_int_small; simpl; lia|].
  apply (enter_twice demo_hiber []);
    [reflexivity | apply is_int_small; simpl; lia].
Defined.

(** X7.  Round trip.  On an ACTIVE pipeline with no handle captured,
    [enter] followed by [exit] gives back the controller it started from:
    the pipeline record, the block count, the mutex and both handles are as
    before; only the countdown (reset) and the queued work (cancelled) may
    differ, and the log has grown by the enter order followed by the exit
    order on the same attachments. *)
Theorem enter_exit_round_trip (h : exynos_hibernation) (l : list event)
  (d : decon_device) :
  decon h = Some d -> state d = DECON_STATE_ON ->
  lock h = false -> is_int (block_cnt h) ->
  dsim h = None -> wb h = None ->
  (exynos_hibernation_enter ;; exynos_hibernation_exit) (mk_world h l)
  = Ok 0 (mk_world
            (set_work false (set_trig_cnt (reset_cnt d) h))
            (l ++ spec_enter_order d
               ++ spec_exit_order (attached_dsim d) (attached_wb d))).
Proof.
  intros Hd Hs Hl Hb Hds Hwb. unfold bind.
  rewrite (enter_on h l d Hd Hs Hl Hb).
  rewrite (exit_hibernating
             (after_enter h d) _
             (set_dev_usage (dev_usage d - 1)
                (set_state DECON_STATE_HIBERNATION d))).
  - destruct h as [tc bc cam lk dc ds wh f wk], d as [s fp aw ad u].
    cbn [decon state lock dsim wb] in *. subst.
    core_simpl. unfold reset_cnt. core_simpl.
    replace (u - 1 + 1) with u by lia.
    rewrite <- app_assoc. reflexivity.
  - destruct h; reflexivity.
  - reflexivity.
  - destruct h; exact Hl.
  - destruct h; exact Hb.
Qed.

Lemma enter_exit_round_trip_witness :
  decon demo_hiber = Some demo_decon /\ state demo_decon = DECON_STATE_ON /\
  lock demo_hiber = false /\ is_int (block_cnt demo_hiber) /\
  dsim demo_hiber = None /\ wb demo_hiber = None /\
  (exynos_hibernation_enter ;; exynos_hibernation_exit) (mk_world demo_hiber [])
  = Ok 0 (mk_world
            (set_work false (set_trig_cnt (reset_cnt demo_decon) demo_hiber))
            ([] ++ spec_enter_order demo_decon
                ++ spec_exit_order (attached_dsim demo_decon)
                                   (attached_wb demo_decon))).
Proof.
  split; [reflexivity|]. split; [reflexivity|]. split; [reflexivity|].
  split; [apply is_int_small; simpl; lia|].
  split; [reflexivity|]. split; [reflexivity|].
  apply (enter_exit_round_trip demo_hiber [] demo_decon);
    [reflexivity | reflexivity | reflexivity
    | apply is_int_small; simpl; lia | reflexivity | reflexivity].
Defined.

(** ** The work handler *)

Lemma handler_skip (h : exynos_hibernation) (l : list event) :
  funcs h <> None -> block_cnt h <> 0 \/ ~ camera_inactive h ->
  exynos_hibernation_handler (mk_world h l) = Ok tt (mk_world h l).
Proof.
  intros Hf Hv. rewrite handler_unfold. cbn [hiber].
  destruct (funcs h); [|congruence].
  destruct (Z.eq_dec (block_cnt h) 0) as [Hz|Hz].
  - destruct Hv as [Hv|Hv]; [congruence|].
    now rewrite (check_camera h l Hz Hv).
  - now rewrite (check_blocked h l Hz).
Qed.

Lemma handler_tick (h : exynos_hibernation) (l : list event) :
  funcs h <> None -> block_cnt h = 0 -> camera_inactive h ->
  exynos_hibernation_handler (mk_world h l)
  = if atomic_dec (trig_cnt h) =? 0
    then exynos_hibernation_enter
           (mk_world (set_trig_cnt (atomic_dec (trig_cnt h)) h) l)
    else Ok tt (mk_world (set_trig_cnt (atomic_dec (trig_cnt h)) h) l).
Proof.
  intros Hf Hz Hc. rewrite handler_unfold. cbn [hiber].
  destruct (funcs h); [|congruence].
  rewrite (check_ticks h l Hz Hc). reflexivity.
Qed.

Lemma handlers_S (n : nat) (w : world) :
  handlers (S n) w
  = match exynos_hibernation_handler w with
    | Ok _ w' => handlers n w'
    | Blocked => Blocked
    | Fault => Fault
    end.
Proof. reflexivity. Qed.

Lemma handlers_add (n m : nat) :
  forall w,
    handlers (n + m) w
    = match handlers n w with
      | Ok _ w' => handlers m w'
      | Blocked => Blocked
      | Fault => Fault
      end.
Proof.
  induction n as [|n IH]; intros w; [reflexivity|].
  cbn [Nat.add]. rewrite !handlers_S.
  destruct (exynos_hibernation_handler w) as [[] w'| |]; auto.
Qed.

Lemma handlers_skip (n : nat) (h : exynos_hibernation) (l : list event) :
  funcs h <> None -> block_cnt h <> 0 \/ ~ camera_inactive h ->
  handlers n (mk_world h l) = Ok tt (mk_world h l).
Proof.
  intros Hf Hv. induction n as [|n IH]; [reflexivity|].
  now rewrite handlers_S, handler_skip.
Qed.

Lemma handlers_idle (k : nat) :
  forall h l,
    funcs h <> None -> block_cnt h = 0 -> camera_inactive h ->
    Z.of_nat (S k) <= INT_MAX -> trig_cnt h = Z.of_nat (S k) ->
    handlers k (mk_world h l) = Ok tt (mk_world (set_trig_cnt 1 h) l).
Proof.
  induction k as [|k IH]; intros h l Hf Hz Hc Hk Ht.
  - destruct h; cbn [trig_cnt] in Ht; subst. reflexivity.
  - rewrite handlers_S, handler_tick, Ht, atomic_dec_succ by assumption.
    replace (Z.of_nat (S k) =? 0) with false
      by (symmetry; apply Z.eqb_neq; lia).
    rewrite IH.
    + now rewrite set_trig_cnt_twice.
    + destruct h; exact Hf.
    + destruct h; exact Hz.
    + destruct h; exact Hc.
    + lia.
    + destruct h; reflexivity.
Qed.

Lemma handler_due (h : exynos_hibernation) (l : list event)
  (d : decon_device) :
  decon h = Some d -> state d = DECON_STATE_ON ->
  funcs h <> None -> lock h = false ->
  block_cnt h = 0 -> camera_inactive h -> trig_cnt h = 1 ->
  exynos_hibernation_handler (mk_world h l)
  = Ok tt (mk_world (after_enter (set_trig_cnt 0 h) d)
                    (l ++ spec_enter_order d)).
Proof.
  intros Hd Hs Hf Hl Hz Hc Ht.
  rewrite handler_tick, Ht by assumption.
  change (atomic_dec 1) with 0. change (0 =? 0) with true. cbv iota.
  apply enter_on; try assumption.
  destruct h; cbn [block_cnt set_trig_cnt] in *. rewrite Hz.
  apply is_int_small. lia.
Qed.

(** X8.  The handler hibernates the pipeline exactly when everything
    agrees: no veto, camera inactive, the countdown at its last step and the
    pipeline ACTIVE.  Then it runs the whole enter sequence.  In every other
    case it calls no subsystem and leaves the pipeline and both handles as
    they were. *)
Theorem handler_hibernates_iff (h : exynos_hibernation) (l : list event)
  (d : decon_device) :
  decon h = Some d -> funcs h <> None -> lock h = false ->
  is_int (block_cnt h) -> is_int (trig_cnt h) ->
  exists w',
    exynos_hibernation_handler (mk_world h l) = Ok tt w' /\
    (block_cnt h = 0 /\ camera_inactive h /\ trig_cnt h = 1 /\
     state d = DECON_STATE_ON ->
     w' = mk_world (after_enter (set_trig_cnt 0 h) d)
                   (l ++ spec_enter_order d)) /\
    (~ (block_cnt h = 0 /\ camera_inactive h /\ trig_cnt h = 1 /\
        state d = DECON_STATE_ON) ->
     log w' = l /\ decon (hiber w') = Some d /\
     dsim (hiber w') = dsim h /\ wb (hiber w') = wb h).
Proof.
  intros Hd Hf Hl Hb Ht.
  destruct (Z.eq_dec (block_cnt h) 0) as [Hz|Hz].
  2:{ exists (mk_world h l). split; [apply handler_skip; auto|].
      split; [tauto|]. intros _. cbn [log hiber]. auto. }
  destruct (camera_inactive_dec h) as [Hc|Hc].
  2:{ exists (mk_world h l). split; [apply handler_skip; auto|].
      split; [tauto|]. intros _. cbn [log hiber]. auto. }
  destruct (Z.eq_dec (trig_cnt h) 1) as [H1|H1].
  - destruct (decon_state_eqb (state d) DECON_STATE_ON) eqn:Hs.
    + assert (Ho : state d = DECON_STATE_ON)
        by (destruct (state d); try discriminate; reflexivity).
      eexists. split; [now apply (handler_due h l d)|].
      split; [reflexivity|]. tauto.
    + assert (Ho : state d <> DECON_STATE_ON)
        by (intros E; rewrite E in Hs; discriminate).
      exists (mk_world (set_trig_cnt 0 h) l). split.
      * rewrite handler_tick, H1 by assumption.
        change (atomic_dec 1) with 0. change (0 =? 0) with true. cbv iota.
        apply (enter_not_on _ l d); try assumption; destruct h; assumption.
      * split; [tauto|]. intros _. destruct h; cbn. auto.
  - exists (mk_world (set_trig_cnt (atomic_dec (trig_cnt h)) h) l). split.
    + rewrite handler_tick by assumption.
      destruct (atomic_dec (trig_cnt h) =? 0) eqn:E; [|reflexivity].
      apply Z.eqb_eq in E. apply (atomic_dec_zero _ Ht) in E. contradiction.
    + split; [tauto|]. intros _. destruct h; cbn. auto.
Qed.

Lemma handler_hibernates_iff_witness :
  decon demo_due = Some demo_decon /\ funcs demo_due <> None /\
  lock demo_due = false /\ is_int (block_cnt demo_due) /\
  is_int (trig_cnt demo_due) /\
  exists w',
    exynos_hibernation_handler (mk_world demo_due []) = Ok tt w' /\
    (block_cnt demo_due = 0 /\ camera_inactive demo_due /\
     trig_cnt demo_due = 1 /\ state demo_decon = DECON_STATE_ON ->
     w' = mk_world (after_enter (set_trig_cnt 0 demo_due) demo_decon)
                   ([] ++ spec_enter_order demo_decon)) /\
    (~ (block_cnt demo_due = 0 /\ camera_inactive demo_due /\
        trig_cnt demo_due = 1 /\ state demo_decon = DECON_STATE_ON) ->
     log w' = [] /\ decon (hiber w') = Some demo_decon /\
     dsim (hiber w') = dsim demo_due /\ wb (hiber w') = wb demo_due).
Proof.
  split; [reflexivity|]. split; [discriminate|]. split; [reflexivity|].
  split; [apply is_int_small; simpl; lia|].
  split; [apply is_int_small; simpl; lia|].
  apply (handler_hibernates_iff demo_due [] demo_decon);
    [ reflexivity | discriminate | reflexivity
    | apply is_int_small; simpl; lia | apply is_int_small; simpl; lia ].
Defined.

(** X9.  With nothing vetoed, the camera inactive and the pipeline ACTIVE,
    a countdown standing at [n] lets the first [n - 1] handler runs do
    nothing but count (no subsystem call, pipeline untouched), and makes
    the [n]-th run perform the enter sequence. *)
Theorem handlers_countdown (h : exynos_hibernation) (l : list event)
  (d : decon_device) (n : Z) :
  decon h = Some d -> state d = DECON_STATE_ON ->
  funcs h <> None -> lock h = false ->
  block_cnt h = 0 -> camera_inactive h ->
  1 <= n <= INT_MAX -> trig_cnt h = n ->
  handlers (Z.to_nat (n - 1)) (mk_world h l)
  = Ok tt (mk_world (set_trig_cnt 1 h) l) /\
  handlers (Z.to_nat n) (mk_world h l)
  = Ok tt (mk_world (after_enter (set_trig_cnt 0 h) d)
                    (l ++ spec_enter_order d)).
Proof.
  intros Hd Hs Hf Hl Hz Hc Hn Ht.
  assert (Hidle : handlers (Z.to_nat (n - 1)) (mk_world h l)
                  = Ok tt (mk_world (set_trig_cnt 1 h) l)).
  { apply handlers_idle; try assumption; lia. }
  split; [exact Hidle|].
  replace (Z.to_nat n) with (Z.to_nat (n - 1) + 1)%nat by lia.
  rewrite handlers_add, Hidle, handlers_S.
  rewrite (handler_due (set_trig_cnt 1 h) l d);
    try (destruct h; assumption); try (destruct h; reflexivity).
Qed.

Lemma handlers_countdown_witness :
  decon demo_hiber = Some demo_decon /\ state demo_decon = DECON_STATE_ON /\
  funcs demo_hiber <> None /\ lock demo_hiber = false /\
  block_cnt demo_hiber = 0 /\ camera_inactive demo_hiber /\
  1 <= 3 <= INT_MAX /\ trig_cnt demo_hiber = 3 /\
  handlers (Z.to_nat (3 - 1)) (mk_world demo_hiber [])
  = Ok tt (mk_world (set_trig_cnt 1 demo_hiber) []) /\
  handlers (Z.to_nat 3) (mk_world demo_hiber [])
  = Ok tt (mk_world (after_enter (set_trig_cnt 0 demo_hiber) demo_decon)
                    ([] ++ spec_enter_order demo_decon)).
Proof.
  split; [reflexivity|]. split; [reflexivity|]. split; [discriminate|].
  split; [reflexivity|]. split; [reflexivity|]. split; [exact I|].
  split; [unfold INT_MAX; lia|]. split; [reflexivity|].
  apply (handlers_countdown demo_hiber [] demo_decon 3);
    [ reflexivity | reflexivity | discriminate | reflexivity | reflexivity
    | exact I | unfold INT_MAX; lia | reflexivity ].
Defined.

(** X10.  Wake, then idle.  After [exit] has woken a hibernating pipeline
    (nothing vetoed, camera inactive), the reset makes the worker wait:
    with [n] the count the reset stores, [n - 1] handler runs leave the
    pipeline ACTIVE and call nothing, and the [n]-th run hibernates it
    again, on the attachments the pipeline has then. *)
Theorem wake_then_idle (h : exynos_hibernation) (l : list event)
  (d : decon_device) :
  decon h = Some d -> state d = DECON_STATE_HIBERNATION ->
  funcs h <> None -> lock h = false ->
  block_cnt h = 0 -> camera_inactive h ->
  exists n w1 w2 d1 d2,
    1 <= n /\
    exynos_hibernation_exit (mk_world h l) = Ok 0 w1 /\
    trig_cnt (hiber w1) = n /\
    handlers (Z.to_nat (n - 1)) w1 = Ok tt w2 /\
    log w2 = log w1 /\
    decon (hiber w2) = Some d1 /\ state d1 = DECON_STATE_ON /\
    exists w3,
      handlers (Z.to_nat n) w1 = Ok tt w3 /\
      log w3 = log w1 ++ spec_enter_order d /\
      decon (hiber w3) = Some d2 /\ state d2 = DECON_STATE_HIBERNATION.
Proof.
  intros Hd Hs Hf Hl Hz Hc.
  pose proof (reset_cnt_min d) as Hmin.
  pose proof (reset_cnt_int d) as Hint.
  unfold HIBERNATION_ENTRY_MIN_ENTRY_CNT in Hmin. unfold is_int in Hint.
  set (d1 := set_state DECON_STATE_ON (set_dev_usage (dev_usage d + 1) d)).
  assert (Hb : is_int (block_cnt h)) by (rewrite Hz; apply is_int_small; lia).
  set (h1 := after_exit h d).
  set (l1 := l ++ spec_exit_order (dsim h) (wb h)).
  assert (Hf1 : funcs h1 <> None) by (destruct h; exact Hf).
  assert (Hz1 : block_cnt h1 = 0) by (destruct h; exact Hz).
  assert (Hc1 : camera_inactive h1) by (destruct h; exact Hc).
  assert (Hl1 : lock h1 = false) by (destruct h; exact Hl).
  assert (Hd1 : decon h1 = Some d1) by (destruct h; reflexivity).
  assert (Ht1 : trig_cnt h1 = reset_cnt d)
    by (destruct h; unfold h1, after_exit, set_wb, set_dsim, set_decon,
          set_work, set_trig_cnt, trig_cnt; reflexivity).
  assert (H1 : handlers (Z.to_nat (reset_cnt d - 1)) (mk_world h1 l1)
               = Ok tt (mk_world (set_trig_cnt 1 h1) l1)).
  { apply handlers_idle; [exact Hf1 | exact Hz1 | exact Hc1 | lia |].
    rewrite Ht1. lia. }
  assert (H2 : handlers (Z.to_nat (reset_cnt d)) (mk_world h1 l1)
               = Ok tt (mk_world (after_enter (set_trig_cnt 0 h1) d1)
                                 (l1 ++ spec_enter_order d1))).
  { replace (Z.to_nat (reset_cnt d))
      with (Z.to_nat (reset_cnt d - 1) + 1)%nat by lia.
    rewrite handlers_add, H1, handlers_S.
    rewrite (handler_due (set_trig_cnt 1 h1) l1 d1).
    - now rewrite set_trig_cnt_twice.
    - destruct h1; exact Hd1.
    - reflexivity.
    - destruct h1; exact Hf1.
    - destruct h1; exact Hl1.
    - destruct h1; exact Hz1.
    - destruct h1; exact Hc1.
    - destruct h1; reflexivity. }
  assert (Hexit : exynos_hibernation_exit (mk_world h l)
                  = Ok 0 (mk_world h1 l1))
    by (now apply exit_hibernating).
  assert (Hse : spec_enter_order d1 = spec_enter_order d)
    by (destruct d; reflexivity).
  clearbody h1 l1.
  exists (reset_cnt d), (mk_world h1 l1), (mk_world (set_trig_cnt 1 h1) l1),
    d1, (set_dev_usage (dev_usage d1 - 1)
           (set_state DECON_STATE_HIBERNATION d1)).
  split; [exact Hmin|]. split; [exact Hexit|]. split; [exact Ht1|].
  split; [exact H1|]. split; [reflexivity|].
  split; [destruct h1; exact Hd1|]. split; [reflexivity|].
  eexists. split; [exact H2|]. cbn [log hiber].
  split; [now rewrite Hse|].
  split; [destruct h1; reflexivity|]. reflexivity.
Qed.

Lemma wake_then_idle_witness :
  decon demo_hibernating
  = Some (mk_decon DECON_STATE_HIBERNATION 60 (Some 7%nat) (Some 9%nat) 0) /\
  funcs demo_hibernating <> None /\ lock demo_hibernating = false /\
  block_cnt demo_hibernating = 0 /\ camera_inactive demo_hibernating /\
  exists n w1 w2 d1 d2,
    1 <= n /\
    exynos_hibernation_exit (mk_world demo_hibernating []) = Ok 0 w1 /\
    trig_cnt (hiber w1) = n /\
    handlers (Z.to_nat (n - 1)) w1 = Ok tt w2 /\
    log w2 = log w1 /\
    decon (hiber w2) = Some d1 /\ state d1 = DECON_STATE_ON /\
    exists w3,
      handlers (Z.to_nat n) w1 = Ok tt w3 /\
      log w3
      = log w1
        ++ spec_enter_order
             (mk_decon DECON_STATE_HIBERNATION 60 (Some 7%nat) (Some 9%nat) 0) /\
      decon (hiber w3) = Some d2 /\ state d2 = DECON_STATE_HIBERNATION.
Proof.
  split; [reflexivity|]. split; [discriminate|]. split; [reflexivity|].
  split; [reflexivity|]. split; [exact I|].
  apply (wake_then_idle demo_hibernating [] _ eq_refl);
    [ reflexivity | discriminate | reflexivity | reflexivity | exact I ].
Defined.

(** X11.  A held veto, or a busy camera, stops the worker for good: however
    many times the handler runs, it calls no subsystem and changes nothing
    at all, the countdown included.  This needs no free mutex, since the
    handler gives up before [enter] would take it. *)
Theorem handlers_vetoed (h : exynos_hibernation) (l : list event) (n : nat) :
  funcs h <> None -> 0 < block_cnt h \/ ~ camera_inactive h ->
  handlers n (mk_world h l) = Ok tt (mk_world h l).
Proof.
  intros Hf Hv. apply handlers_skip; [exact Hf|].
  destruct Hv as [Hv|Hv]; [left; lia | right; exact Hv].
Qed.

Lemma handlers_vetoed_witness :
  funcs demo_camera <> None /\
  (0 < block_cnt demo_camera \/ ~ camera_inactive demo_camera) /\
  handlers 5 (mk_world demo_camera []) = Ok tt (mk_world demo_camera []).
Proof.
  assert (Hc : 0 < block_cnt demo_camera \/ ~ camera_inactive demo_camera)
    by (right; intros H; discriminate H).
  split; [discriminate|]. split; [exact Hc|].
  apply (handlers_vetoed demo_camera [] 5); [discriminate | exact Hc].
Defined.

(** X12.  [hibernation_block_exit] protects its caller: when it returns
    (the count it found not negative and below [INT_MAX]), a veto is held,
    the pipeline is not hibernating, and no number of handler runs changes
    anything, so the pipeline stays awake until somebody unblocks. *)
Theorem block_exit_protects (h : exynos_hibernation) (l : list event)
  (n : nat) :
  funcs h <> None -> lock h = false -> 0 <= block_cnt h < INT_MAX ->
  exists b w1,
    hibernation_block_exit HIBER (mk_world h l) = Ok b w1 /\
    0 < block_cnt (hiber w1) /\
    (forall d1, decon (hiber w1) = Some d1 ->
       state d1 <> DECON_STATE_HIBERNATION) /\
    handlers n w1 = Ok tt w1.
Proof.
  intros Hf Hl Hb. rewrite block_exit_unfold.
  assert (Hinc : atomic_inc (block_cnt h) = block_cnt h + 1)
    by (apply atomic_inc_small; unfold INT_MIN; lia).
  rewrite Hinc.
  set (h1 := set_block_cnt (block_cnt h + 1) h).
  assert (Hl1 : lock h1 = false) by (destruct h; exact Hl).
  assert (Hb1 : is_int (block_cnt h1))
    by (destruct h; cbn [block_cnt set_block_cnt h1] in *;
        unfold is_int, INT_MIN in *; lia).
  assert (Hc1 : block_cnt h1 = block_cnt h + 1) by (destruct h; reflexivity).
  assert (Hf1 : funcs h1 = funcs h) by (destruct h; reflexivity).
  assert (Hd1 : decon h1 = decon h) by (destruct h; reflexivity).
  destruct (funcs h) as [f|] eqn:Ef; [|congruence].
  destruct (decon h) as [d|] eqn:Ed.
  - destruct (decon_state_eqb (state d) DECON_STATE_HIBERNATION) eqn:Hs.
    + assert (Hh : state d = DECON_STATE_HIBERNATION)
        by (destruct (state d); try discriminate; reflexivity).
      rewrite (exit_hibernating h1 l d) by congruence.
      eexists _, _. split; [reflexivity|]. cbn [hiber].
      assert (E1 : block_cnt (after_exit h1 d) = block_cnt h + 1)
        by (destruct h; reflexivity).
      assert (E2 : funcs (after_exit h1 d) = Some f)
        by (destruct h; cbn in *; congruence).
      split; [lia|]. split.
      * intros d1 E. destruct h; cbn in E. injection E as <-. discriminate.
      * apply handlers_skip; [congruence | left; lia].
    + assert (Hh : state d <> DECON_STATE_HIBERNATION)
        by (intros E; rewrite E in Hs; discriminate).
      rewrite (exit_not_hibernating h1 l d) by congruence.
      eexists _, _. split; [reflexivity|]. cbn [hiber].
      assert (E1 : block_cnt (set_work false (set_trig_cnt (reset_cnt d) h1))
                   = block_cnt h + 1)
        by (destruct h; reflexivity).
      assert (E2 : funcs (set_work false (set_trig_cnt (reset_cnt d) h1))
                   = Some f)
        by (destruct h; cbn in *; congruence).
      assert (E3 : decon (set_work false (set_trig_cnt (reset_cnt d) h1))
                   = Some d)
        by (destruct h; cbn in *; congruence).
      split; [lia|]. split.
      * intros d1 E. congruence.
      * apply handlers_skip; [congruence | left; lia].
  - rewrite (exit_no_decon (mk_world h1 l)) by (cbn [hiber]; congruence).
    eexists _, _. split; [reflexivity|]. cbn [hiber].
    split; [lia|]. split.
    + intros d1 E. congruence.
    + apply handlers_skip; [congruence | left; lia].
Qed.

Lemma block_exit_protects_witness :
  funcs demo_hibernating <> None /\ lock demo_hibernating = false /\
  0 <= block_cnt demo_hibernating < INT_MAX /\
  exists b w1,
    hibernation_block_exit HIBER (mk_world demo_hibernating []) = Ok b w1 /\
    0 < block_cnt (hiber w1) /\
    (forall d1, decon (hiber w1) = Some d1 ->
       state d1 <> DECON_STATE_HIBERNATION) /\
    handlers 4 w1 = Ok tt w1.
Proof.
  assert (Hb : 0 <= block_cnt demo_hibernating < INT_MAX)
    by (unfold INT_MAX; simpl; lia).
  split; [discriminate|]. split; [reflexivity|]. split; [exact Hb|].
  apply (block_exit_protects demo_hibernating [] 4);
    [discriminate | reflexivity | exact Hb].
Defined.

(** ** The countdown once it has fired *)

Lemma checks_S (n : nat) (w : world) :
  checks (S n) w
  = match exynos_hibernation_check w with
    | Ok b w' =>
        match checks n w' with
        | Ok bs w'' => Ok (b :: bs) w''
        | Blocked => Blocked
        | Fault => Fault
        end
    | Blocked => Blocked
    | Fault => Fault
    end.
Proof. reflexivity. Qed.

(** X13.  The countdown is a latch, not a periodic timer: once the trigger
    counter is at or below zero, every further check answers false (as long
    as the counter does not wrap, i.e. for about two thousand million
    checks), whatever the veto count and the camera say.  Only a reset makes
    the check pass again. *)
Theorem countdown_fires_once (n : nat) :
  forall (h : exynos_hibernation) (l : list event),
    trig_cnt h <= 0 -> INT_MIN <= trig_cnt h - Z.of_nat n ->
    exists w',
      checks n (mk_world h l) = Ok (repeat false n) w' /\
      log w' = l /\ trig_cnt (hiber w') <= 0.
Proof.
  induction n as [|n IH]; intros h l Ht Hn.
  - exists (mk_world h l). repeat split; assumption.
  - rewrite checks_S.
    assert (Hstep : exists h1,
               exynos_hibernation_check (mk_world h l)
               = Ok false (mk_world h1 l) /\
               trig_cnt h1 <= 0 /\ trig_cnt h - 1 <= trig_cnt h1).
    { destruct (Z.eq_dec (block_cnt h) 0) as [Hz|Hz].
      - destruct (camera_inactive_dec h) as [Hc|Hc].
        + assert (Hd : atomic_dec (trig_cnt h) = trig_cnt h - 1)
            by (apply to_int_id; unfold is_int, INT_MIN, INT_MAX in *; lia).
          exists (set_trig_cnt (trig_cnt h - 1) h).
          rewrite (check_ticks h l Hz Hc), Hd.
          replace (trig_cnt h - 1 =? 0) with false
            by (symmetry; apply Z.eqb_neq; lia).
          split; [reflexivity|].
          destruct h; cbn [trig_cnt set_trig_cnt] in *. lia.
        + exists h. rewrite (check_camera h l Hz Hc). repeat split; lia.
      - exists h. rewrite (check_blocked h l Hz). repeat split; lia. }
    destruct Hstep as (h1 & E & Ht1 & Hlow). rewrite E.
    destruct (IH h1 l Ht1) as (w' & E' & Hl' & Ht'); [lia|].
    rewrite E'. exists w'. cbn [repeat]. repeat split; assumption.
Qed.

Lemma countdown_fires_once_witness :
  trig_cnt demo_fired <= 0 /\ INT_MIN <= trig_cnt demo_fired - Z.of_nat 6 /\
  exists w',
    checks 6 (mk_world demo_fired []) = Ok (repeat false 6) w' /\
    log w' = [] /\ trig_cnt (hiber w') <= 0.
Proof.
  split; [simpl; lia|]. split; [unfold INT_MIN; simpl; lia|].
  apply (countdown_fires_once 6 demo_fired []);
    [simpl; lia | unfold INT_MIN; simpl; lia].
Defined.

(** ** Bounds on what a reset stores *)

Lemma div_round_up_bound (x : Z) :
  is_int x ->
  -2147483 <= to_int (DIV_ROUND_UP x MSEC_PER_SEC) <= 2147484.
Proof.
  unfold is_int, INT_MIN, INT_MAX, DIV_ROUND_UP, MSEC_PER_SEC.
  change (2 ^ 31) with 2147483648. intros Hx.
  assert (Hl : to_long (x + 1000 - 1) = x + 999).
  { unfold to_long.
    change (2 ^ 63) with 9223372036854775808.
    change (2 ^ 64) with 18446744073709551616.
    rewrite Z.mod_small by lia. lia. }
  rewrite Hl.
  assert (Hq : -2147483 <= Z.quot (x + 999) 1000 <= 2147484)
    by (Z.to_euclidean_division_equations; lia).
  rewrite to_int_id
    by (unfold is_int, INT_MIN, INT_MAX; change (2 ^ 31) with 2147483648; lia).
  exact Hq.
Qed.

(** X14.  Whatever rate the pipeline reports, overflowing or not, a reset
    stores a count between 1 and 2147484; and at 20 Hz or below (but not 0,
    which stands for 60 Hz) it stores 1, so that the very next eligible
    check passes. *)
Theorem trig_reset_bounds (h : exynos_hibernation) (l : list event)
  (d : decon_device) :
  decon h = Some d ->
  exists n,
    exynos_hibernation_trig_reset (mk_world h l)
    = Ok tt (mk_world (set_trig_cnt n h) l) /\
    1 <= n <= 2147484 /\
    (0 < bts_fps d <= 20 -> n = 1).
Proof.
  intros Hd. exists (reset_cnt d). split; [now apply trig_reset_eq|].
  pose proof (reset_cnt_min d) as Hmin.
  unfold HIBERNATION_ENTRY_MIN_ENTRY_CNT in Hmin.
  split; [split; [exact Hmin|]|].
  - unfold reset_cnt. cbv zeta.
    match goal with
    | |- context [DIV_ROUND_UP ?x MSEC_PER_SEC] =>
        pose proof (div_round_up_bound x (to_int_range _)) as Hq
    end.
    destruct (_ <? HIBERNATION_ENTRY_MIN_ENTRY_CNT);
      unfold HIBERNATION_ENTRY_MIN_ENTRY_CNT; lia.
  - intros Hf. unfold reset_cnt.
    replace (bts_fps d =? 0) with false by (symmetry; apply Z.eqb_neq; lia).
    rewrite reset_cnt_in_range
      by (unfold INT_MIN, INT_MAX, HIBERNATION_ENTRY_MIN_TIME_MS; lia).
    unfold spec_entry_cnt, ceil_div.
    assert (Hc : -1 <= - (bts_fps d * 50) / 1000 <= 0)
      by (Z.to_euclidean_division_equations; lia).
    lia.
Qed.

Lemma trig_reset_bounds_witness :
  decon demo_overflow = Some (mk_decon DECON_STATE_ON 42949673 None None 1) /\
  exists n,
    exynos_hibernation_trig_reset (mk_world demo_overflow [])
    = Ok tt (mk_world (set_trig_cnt n demo_overflow) []) /\
    1 <= n <= 2147484 /\
    (0 < bts_fps (mk_decon DECON_STATE_ON 42949673 None None 1) <= 20 ->
     n = 1).
Proof.
  split; [reflexivity|].
  apply (trig_reset_bounds demo_overflow [] _ eq_refl).
Defined.

(** X15.  Within the range where [fps * 50] fits an [int], a faster
    pipeline never gets a shorter countdown: the count a reset stores is
    monotone in the refresh rate. *)
Theorem trig_reset_monotone (h1 h2 : exynos_hibernation)
  (l1 l2 : list event) (d1 d2 : decon_device) :
  decon h1 = Some d1 -> decon h2 = Some d2 ->
  0 < bts_fps d1 <= bts_fps d2 -> bts_fps d2 * 50 <= INT_MAX ->
  exists n1 n2,
    exynos_hibernation_trig_reset (mk_world h1 l1)
    = Ok tt (mk_world (set_trig_cnt n1 h1) l1) /\
    exynos_hibernation_trig_reset (mk_world h2 l2)
    = Ok tt (mk_world (set_trig_cnt n2 h2) l2) /\
    n1 <= n2.
Proof.
  intros H1 H2 Hf Hmax. exists (reset_cnt d1), (reset_cnt d2).
  split; [now apply trig_reset_eq|]. split; [now apply trig_reset_eq|].
  unfold INT_MAX in Hmax. change (2 ^ 31) with 2147483648 in Hmax.
  unfold reset_cnt.
  replace (bts_fps d1 =? 0) with false by (symmetry; apply Z.eqb_neq; lia).
  replace (bts_fps d2 =? 0) with false by (symmetry; apply Z.eqb_neq; lia).
  rewrite !reset_cnt_in_range
    by (unfold INT_MIN, INT_MAX, HIBERNATION_ENTRY_MIN_TIME_MS;
        change (2 ^ 31) with 2147483648; lia).
  unfold spec_entry_cnt, ceil_div.
  assert (Hdiv : - (bts_fps d2 * 50) / 1000 <= - (bts_fps d1 * 50) / 1000)
    by (apply Z.div_le_mono; lia).
  lia.
Qed.

Lemma trig_reset_monotone_witness :
  decon demo_hiber = Some demo_decon /\
  decon demo_fast = Some demo_fast_decon /\
  0 < bts_fps demo_decon <= bts_fps demo_fast_decon /\
  bts_fps demo_fast_decon * 50 <= INT_MAX /\
  exists n1 n2,
    exynos_hibernation_trig_reset (mk_world demo_hiber [])
    = Ok tt (mk_world (set_trig_cnt n1 demo_hiber) []) /\
    exynos_hibernation_trig_reset (mk_world demo_fast [])
    = Ok tt (mk_world (set_trig_cnt n2 demo_fast) []) /\
    n1 <= n2.
Proof.
  split; [reflexivity|]. split; [reflexivity|].
  split; [simpl; lia|]. split; [unfold INT_MAX; simpl; lia|].
  apply (trig_reset_monotone demo_hiber demo_fast [] []
           demo_decon demo_fast_decon);
    [reflexivity | reflexivity | simpl; lia | unfold INT_MAX; simpl; lia].
Defined.

(** ** What no call changes, and tear-down *)

Lemma same_config_refl (h : exynos_hibernation) : same_config h h.
Proof.
  unfold same_config. destruct (decon h); repeat split; reflexivity.
Qed.

Lemma same_config_effect (h0 : exynos_hibernation) (w w' : world) :
  ready w -> same_config h0 (hiber w) -> effect w w' ->
  same_config h0 (hiber w').
Proof.
  intros _ (Ec & Ef & Hd0) [Hc Hl|d Hd Hs Hc Hl|d Hd Hs Hc Hl];
    destruct Hc as (Ec' & _ & Ed' & _ & _ & Ef' & _);
    unfold same_config; rewrite Ec', Ef', Ed'.
  - repeat split; assumption.
  - destruct (hiber w) as [tc bc cam lk dc ds wh f wk].
    cbn [decon cam_op_reg funcs] in *. subst dc.
    core_simpl. destruct (let (_, _, _, _, dc0, _, _, _, _) := h0 in dc0);
      [|contradiction]. destruct d; core_simpl. tauto.
  - destruct (hiber w) as [tc bc cam lk dc ds wh f wk].
    cbn [decon cam_op_reg funcs] in *. subst dc.
    core_simpl. destruct (let (_, _, _, _, dc0, _, _, _, _) := h0 in dc0);
      [|contradiction]. destruct d; core_simpl. tauto.
Qed.

(** X16.  No sequence of calls (block, unblock, check, enter, exit,
    block-and-exit, handler) ever changes what registration fixed: the
    camera register, the operations table, and the pipeline's rate and
    attachments stay as they were; every such sequence returns, and it
    returns with the mutex free. *)
Theorem calls_keep_config (h : exynos_hibernation) (l : list event)
  (os : list op) :
  funcs h <> None -> lock h = false -> is_int (block_cnt h) ->
  exists w',
    run os (mk_world h l) = Ok tt w' /\
    same_config h (hiber w') /\ lock (hiber w') = false.
Proof.
  intros Hf Hl Hb.
  destruct (run_invariant (fun w => same_config h (hiber w))
              (same_config_effect h) os (mk_world h l))
    as (w' & E & (Hl' & _) & Hc).
  - unfold ready; cbn [hiber]; auto.
  - apply same_config_refl.
  - exists w'. auto.
Qed.

Lemma calls_keep_config_witness :
  funcs demo_camera <> None /\ lock demo_camera = false /\
  is_int (block_cnt demo_camera) /\
  exists w',
    run [Op_handler; Op_block_exit; Op_enter; Op_unblock; Op_exit]
        (mk_world demo_camera [])
    = Ok tt w' /\
    same_config demo_camera (hiber w') /\ lock (hiber w') = false.
Proof.
  split; [discriminate|]. split; [reflexivity|].
  split; [apply is_int_small; simpl; lia|].
  apply (calls_keep_config demo_camera []);
    [discriminate | reflexivity | apply is_int_small; simpl; lia].
Defined.

(** X17.  Tear-down releases what registration mapped, no more and no
    less: after any sequence of calls on a registered controller,
    [exynos_hibernation_destroy] unmaps one register exactly when the
    device node had a camera register that mapped, and unmaps nothing
    otherwise; on a NULL controller it does nothing. *)
Theorem destroy_unmaps_what_register_mapped (d : decon_device)
  (np : device_node) (alloc_ok : bool) (h : exynos_hibernation)
  (os : list op) :
  exynos_hibernation_register d np alloc_ok = Some h ->
  exists w',
    run os (mk_world h []) = Ok tt w' /\
    (exynos_hibernation_destroy HIBER w' = [Io_iounmap] <->
     exists v, of_camera_operation np = Some (Some v)) /\
    (exynos_hibernation_destroy HIBER w' = [] <->
     of_camera_operation np = None) /\
    exynos_hibernation_destroy NULL w' = [].
Proof.
  intros Hr.
  destruct (register_establishes d np alloc_ok h Hr)
    as ((Hl & Hf & Hb) & _ & Hd & _ & _).
  cbn [hiber] in *.
  destruct (run_invariant (fun w => same_config h (hiber w))
              (same_config_effect h) os (mk_world h []))
    as (w' & E & _ & (Hc & _)).
  - unfold ready; cbn [hiber]; auto.
  - apply same_config_refl.
  - exists w'. split; [exact E|].
    unfold exynos_hibernation_destroy. rewrite Hc.
    revert Hr. unfold exynos_hibernation_register.
    destruct (of_hibernation np); [|discriminate].
    destruct alloc_ok; [|discriminate]. cbn [negb].
    destruct (of_camera_operation np) as [[v|]|]; try discriminate.
    all: cbv zeta; rewrite (trig_reset_eq _ _ d) by reflexivity.
    all: intros Hr; injection Hr as <-; unfold kzalloc_hiber; core_simpl.
    + repeat split; try discriminate; eauto.
    + repeat split; try discriminate; auto.
      intros (v & E'). discriminate.
Qed.

Lemma destroy_unmaps_what_register_mapped_witness :
  exynos_hibernation_register demo_decon demo_node true
  = Some (set_cam_op_reg (Some 0) demo_hiber) /\
  exists w',
    run [Op_handler; Op_exit]
        (mk_world (set_cam_op_reg (Some 0) demo_hiber) [])
    = Ok tt w' /\
    (exynos_hibernation_destroy HIBER w' = [Io_iounmap] <->
     exists v, of_camera_operation demo_node = Some (Some v)) /\
    (exynos_hibernation_destroy HIBER w' = [] <->
     of_camera_operation demo_node = None) /\
    exynos_hibernation_destroy NULL w' = [].
Proof.
  split; [reflexivity|].
  apply (destroy_unmaps_what_register_mapped demo_decon demo_node true).
  reflexivity.
Defined.
